(** * Android input-event recorder and replayer: model and properties

    The repository holds two variants of the recorder (r.py, adbpull.py) and
    two variants of the replayer (playx.py, replayx.py).  Each variant is
    embedded in a module of its own, with the names of the Python methods.

    Conventions of the embedding:
    - a Python [str] is a [string]; only code points below 256 are
      represented, and case mapping is the ASCII one;
    - a Python [int] is a [Z]; [None] is the [None] of [option];
    - wall-clock readings ([time.time()]) are rationals ([Q]);
    - an insertion-ordered [dict] with string keys is an association list;
    - a caught exception is a [None] met by the handler that catches it;
    - what the device answers (command output, pulled file, clock) is an
      explicit argument of the step that asks for it. *)

From Stdlib Require Import String Ascii List ZArith QArith Bool Lia.
From Stdlib Require Import DecimalString.
Import ListNotations.
Set Warnings "-register-all".
Open Scope string_scope.
Open Scope Z_scope.

(* ================================================================= *)
(** ** Python built-ins used by the scripts *)

Module Py.

(** [sub in s] for strings. *)
Fixpoint contains (sub s : string) : bool :=
  prefix sub s ||
  match s with
  | EmptyString => false
  | String _ s' => contains sub s'
  end.

(** [s.startswith(p)]. *)
Definition startswith (p s : string) : bool := prefix p s.

(** [s[n:]]. *)
Fixpoint drop (n : nat) (s : string) : string :=
  match n, s with
  | O, _ => s
  | S _, EmptyString => EmptyString
  | S n', String _ s' => drop n' s'
  end.

Definition code (c : ascii) : Z := Z.of_N (N_of_ascii c).

Definition between (lo hi : Z) (c : ascii) : bool :=
  (lo <=? code c) && (code c <=? hi).

(** [c.isspace()]: tab to carriage return, the four separators 28..31,
    space, NEL and no-break space. *)
Definition isspace (c : ascii) : bool :=
  between 9 13 c || between 28 32 c || (code c =? 133) || (code c =? 160).

Definition is_empty (s : string) : bool :=
  match s with EmptyString => true | _ => false end.

(** [s.split()]: the maximal runs of non-space characters, in order.
    [cur] is the run being read. *)
Fixpoint split_from (cur s : string) : list string :=
  match s with
  | EmptyString => if is_empty cur then [] else [cur]
  | String c s' =>
      if isspace c
      then (if is_empty cur then split_from "" s' else cur :: split_from "" s')
      else split_from (cur ++ String c "") s'
  end.

Definition split (s : string) : list string := split_from "" s.

(** [l[-1]]; [None] stands for the [IndexError] of the empty list. *)
Fixpoint last_item {A : Type} (l : list A) : option A :=
  match l with
  | [] => None
  | [a] => Some a
  | _ :: l' => last_item l'
  end.

(** [s.split(sep)[-1]]: what follows the last separator. *)
Fixpoint after_last (sep : ascii) (cur s : string) : string :=
  match s with
  | EmptyString => cur
  | String c s' =>
      if Ascii.eqb c sep then after_last sep "" s'
      else after_last sep (cur ++ String c "") s'
  end.

Definition split_last (sep : ascii) (s : string) : string :=
  after_last sep "" s.

Fixpoint lstrip_by (p : ascii -> bool) (s : string) : string :=
  match s with
  | EmptyString => EmptyString
  | String c s' => if p c then lstrip_by p s' else s
  end.

Fixpoint rstrip_by (p : ascii -> bool) (s : string) : string :=
  match s with
  | EmptyString => EmptyString
  | String c s' =>
      let r := rstrip_by p s' in
      if p c && is_empty r then EmptyString else String c r
  end.

(** [s.strip()] and [s.strip(":")]. *)
Definition strip_by (p : ascii -> bool) (s : string) : string :=
  rstrip_by p (lstrip_by p s).

Definition strip (s : string) : string := strip_by isspace s.

Definition strip_char (ch : ascii) (s : string) : string :=
  strip_by (Ascii.eqb ch) s.

(** [s.upper()] on ASCII letters. *)
Definition upper_char (c : ascii) : ascii :=
  if between 97 122 c then ascii_of_N (N_of_ascii c - 32) else c.

Fixpoint upper (s : string) : string :=
  match s with
  | EmptyString => EmptyString
  | String c s' => String (upper_char c) (upper s')
  end.

(** Value of a character as a digit, for bases up to 36. *)
Definition digit_val (c : ascii) : option Z :=
  if between 48 57 c then Some (code c - 48)
  else if between 97 122 c then Some (code c - 87)
  else if between 65 90 c then Some (code c - 55)
  else None.

(** The digit loop of [int(s, base)]: digits below the base, with single
    underscores between them; [prev_us] tells that the character before
    was an underscore. *)
Fixpoint digits (base acc : Z) (prev_us : bool) (s : string) : option Z :=
  match s with
  | EmptyString => if prev_us then None else Some acc
  | String c s' =>
      if Ascii.eqb c "_"
      then (if prev_us then None else digits base acc true s')
      else match digit_val c with
           | Some d =>
               if d <? base then digits base (acc * base + d) false s'
               else None
           | None => None
           end
  end.

Definition strip_sign (s : string) : bool * string :=
  match s with
  | String "+" r => (false, r)
  | String "-" r => (true, r)
  | _ => (false, s)
  end.

(** The optional [0x] or [0X] that base 16 accepts, and the one underscore
    allowed after it. *)
Definition strip_base_prefix (base : Z) (s : string) : string :=
  if base =? 16 then
    match s with
    | String "0" (String x r) =>
        if Ascii.eqb x "x" || Ascii.eqb x "X"
        then match r with String "_" r' => r' | _ => r end
        else s
    | _ => s
    end
  else s.

(** [int(s, base)] for a base that is 10 or 16; [None] stands for the
    [ValueError]. *)
Definition int (base : Z) (s : string) : option Z :=
  let '(neg, body) := strip_sign (strip s) in
  let ds := strip_base_prefix base body in
  match ds with
  | EmptyString => None
  | String "_" _ => None
  | _ => option_map (fun v => if neg then - v else v) (digits base 0 false ds)
  end.

(** [str(n)] for an integer. *)
Definition str (n : Z) : string := NilZero.string_of_int (Z.to_int n).

(** How an f-string renders a value that may be [None]. *)
Definition fmt (v : option Z) : string :=
  match v with
  | Some n => str n
  | None => "None"
  end.

(** [\w] on ASCII: letters, digits and the underscore. *)
Definition is_word (c : ascii) : bool :=
  between 48 57 c || between 65 90 c || between 97 122 c || Ascii.eqb c "_".

Definition is_digit (c : ascii) : bool := between 48 57 c.

Fixpoint take_while (p : ascii -> bool) (s : string) : string :=
  match s with
  | EmptyString => EmptyString
  | String c s' => if p c then String c (take_while p s') else EmptyString
  end.

Fixpoint drop_while (p : ascii -> bool) (s : string) : string :=
  match s with
  | EmptyString => EmptyString
  | String c s' => if p c then drop_while p s' else s
  end.

(** Removes a literal prefix; [None] when the string does not start
    with it. *)
Fixpoint eat (lit s : string) : option string :=
  match lit, s with
  | EmptyString, _ => Some s
  | String a lit', String b s' => if Ascii.eqb a b then eat lit' s' else None
  | String _ _, EmptyString => None
  end.

(** An insertion-ordered dictionary with string keys. *)
Section Dict.
Context {V : Type}.

Definition dict := list (string * V).

Fixpoint get (k : string) (d : dict) : option V :=
  match d with
  | [] => None
  | (k', v) :: d' => if String.eqb k k' then Some v else get k d'
  end.

Definition mem (k : string) (d : dict) : bool :=
  match get k d with Some _ => true | None => false end.

(** [d[k] = v]: in place when the key is there, at the end otherwise. *)
Fixpoint set (k : string) (v : V) (d : dict) : dict :=
  match d with
  | [] => [(k, v)]
  | (k', v') :: d' =>
      if String.eqb k k' then (k, v) :: d' else (k', v') :: set k v d'
  end.

(** [d.pop(k, None)]. *)
Fixpoint pop (k : string) (d : dict) : dict :=
  match d with
  | [] => []
  | (k', v') :: d' =>
      if String.eqb k k' then d' else (k', v') :: pop k d'
  end.
End Dict.

Arguments dict V : clear implicits.

End Py.

(* ================================================================= *)
(** ** Shared shapes: exceptions as options, commands, clock *)

Notation "x <- e ;; k" :=
  (match e with Some x => k | None => None end)
  (at level 61, e at next level, right associativity, only parsing).

(** [a > b] on clock readings. *)
Definition Qgtb (a b : Q) : bool := negb (Qle_bool a b).

(** How a [subprocess.run] with a timeout ends. *)
Inductive run_result : Type :=
| TimeoutExpired
| OtherError
| Completed (stdout stderr : string).

Definition dquote : ascii := "034"%char.

(** The regular expression [\[(\d+),(\d+)\]\[(\d+),(\d+)\]] matched at the
    head of a string: the four groups and what follows the match. *)
Definition number (s : string) : option (string * string) :=
  let d := Py.take_while Py.is_digit s in
  if Py.is_empty d then None else Some (d, Py.drop_while Py.is_digit s).

Definition match_bounds (s : string)
  : option ((string * string * string * string) * string) :=
  s <- Py.eat "[" s ;;
  g1 <- number s ;;
  s <- Py.eat "," (snd g1) ;;
  g2 <- number s ;;
  s <- Py.eat "][" (snd g2) ;;
  g3 <- number s ;;
  s <- Py.eat "," (snd g3) ;;
  g4 <- number s ;;
  s <- Py.eat "]" (snd g4) ;;
  Some ((fst g1, fst g2, fst g3, fst g4), s).

(** [min(l, key=...)] on a non-empty list, given as head and tail: the
    first element whose key is least. *)
Fixpoint min_by {A : Type} (key : A -> Z) (best : A) (l : list A) : A :=
  match l with
  | [] => best
  | a :: l' => min_by key (if key a <? key best then a else best) l'
  end.

(** The five event kinds of the capture format, as the scripts spell
    them. *)
Definition event_kinds : list string :=
  ["TOUCH_DOWN"; "TOUCH_UP"; "MOTION"; "KEY_DOWN"; "KEY_UP"].

Definition in_strings (s : string) (l : list string) : bool :=
  existsb (String.eqb s) l.

(** [re.search(r'KEY_(\w+)', line)]: group 1 of the leftmost match. *)
Fixpoint search_key (line : string) : option string :=
  let here :=
    r <- Py.eat "KEY_" line ;;
    let w := Py.take_while Py.is_word r in
    if Py.is_empty w then None else Some w in
  match here with
  | Some w => Some w
  | None =>
      match line with
      | EmptyString => None
      | String _ rest => search_key rest
      end
  end.

(** The value token of a report: [line.split()[-1]], then
    [int(value[2:], 16) if value.startswith("0x") else int(value)].
    [None] is the [IndexError] or [ValueError] raised on the way. *)
Definition parse_value (value : string) : option Z :=
  if Py.startswith "0x" value then Py.int 16 (Py.drop 2 value)
  else Py.int 10 value.

Definition last_token (line : string) : option string :=
  Py.last_item (Py.split line).

(** The fragment a tokenizer returns: the [event_info] dictionary, whose
    keys are among ['x'], ['y'], ['extra_info'] and ['event_type']. *)
Record event_info : Type := mk_info {
  ei_x : option Z;
  ei_y : option Z;
  ei_extra_info : option string;
  ei_event_type : option string
}.

Definition no_info : event_info := mk_info None None None None.

(** An entry of [pending_events]. *)
Record pending : Type := mk_pending {
  p_timestamp : string;
  p_device : string;
  p_package : string;
  p_activity : string;
  p_event_type : string;
  p_x : option Z;
  p_y : option Z;
  p_created_at : Q;
  p_resource_id : string;
  p_extra_info : string
}.

(** An element of the output array: the entry without [created_at], with
    [event_id]. *)
Record json_obj : Type := mk_json {
  j_timestamp : string;
  j_device : string;
  j_package : string;
  j_activity : string;
  j_event_type : string;
  j_x : option Z;
  j_y : option Z;
  j_resource_id : string;
  j_extra_info : string;
  j_event_id : Z
}.

Definition is_complete (e : pending) : bool :=
  match p_x e, p_y e with
  | Some _, Some _ => true
  | _, _ => false
  end.

(** [json_obj = event.copy(); json_obj.pop("created_at", None);
    json_obj["event_id"] = event_counter], for an entry whose
    [resource_id] is [rid] by then. *)
Definition to_json (e : pending) (rid : string) (event_counter : Z) : json_obj :=
  mk_json (p_timestamp e) (p_device e) (p_package e) (p_activity e)
    (p_event_type e) (p_x e) (p_y e) rid (p_extra_info e) event_counter.

(** The [for] loop of [_process_buffer] over the pending entries, in both
    recorders: an entry that is [due] is written as [record] says under
    the current [event_counter], which then grows by one, and its key is
    noted for removal.  The result lists the keys noted with the records
    written, in order. *)
Fixpoint flush_loop (due : pending -> bool) (record : pending -> Z -> json_obj)
    (items : Py.dict pending) (event_counter : Z) : list (string * json_obj) :=
  match items with
  | [] => []
  | (event_id, event) :: rest =>
      if due event
      then (event_id, record event event_counter)
             :: flush_loop due record rest (event_counter + 1)
      else flush_loop due record rest event_counter
  end.

(** [buffer_timeout = 0.1]. *)
Definition buffer_timeout : Q := 1 # 10.

(** [for event_id in events_to_remove: pending_events.pop(event_id, None)]. *)
Definition pop_all {V : Type} (keys : list string) (d : Py.dict V) : Py.dict V :=
  fold_left (fun d k => Py.pop k d) keys d.

(* ================================================================= *)
(** ** r.py *)

Module R.

(** [_parse_event]: the whole body runs under [try ... except Exception],
    so an exception leaves [event_info] as it was when it was raised. *)
Definition _parse_event (line : string) : event_info :=
  if Py.contains "ABS_MT_POSITION_X" line || Py.contains "ABS_X" line then
    match (value <- last_token line ;; parse_value value) with
    | Some v => mk_info (Some v) None None None
    | None => no_info
    end
  else if Py.contains "ABS_MT_POSITION_Y" line || Py.contains "ABS_Y" line then
    match (value <- last_token line ;; parse_value value) with
    | Some v => mk_info None (Some v) None None
    | None => no_info
    end
  else if Py.contains "ABS_MT_PRESSURE" line || Py.contains "ABS_PRESSURE" line then
    match (value <- last_token line ;; parse_value value) with
    | Some pressure => mk_info None None (Some ("Pressure:" ++ Py.str pressure)) None
    | None => no_info
    end
  else if Py.contains "BTN_TOUCH" line then
    mk_info None None None
      (Some (if Py.contains "DOWN" line then "TOUCH_DOWN" else "TOUCH_UP"))
  else if Py.contains "ABS_MT_TRACKING_ID" line then
    match last_token line with
    | None => no_info
    | Some value =>
        if Py.contains "ffffffff" value then
          mk_info None None None (Some "TOUCH_UP")
        else
          match parse_value value with
          | Some track_id =>
              mk_info None None (Some ("TrackID:" ++ Py.str track_id))
                (Some "TOUCH_DOWN")
          | None => mk_info None None None (Some "TOUCH_DOWN")
          end
    end
  else if Py.contains "EV_SYN SYN_REPORT" line then
    mk_info None None None (Some "MOTION")
  else if Py.contains "EV_KEY" line && Py.contains "KEY_" line then
    match search_key line with
    | Some key_name =>
        mk_info None None (Some ("Key:" ++ key_name))
          (Some (if Py.contains "DOWN" line then "KEY_DOWN" else "KEY_UP"))
    | None => no_info
    end
  else no_info.

(** One rectangle of the hierarchy snapshot. *)
Record UiNode : Type := mk_node {
  x1 : Z; y1 : Z; x2 : Z; y2 : Z;
  resource_id : string;
  content_desc : string;
  text : string;
  class : string;
  package : string
}.

Definition area (n : UiNode) : Z := (x2 n - x1 n) * (y2 n - y1 n).

Definition covers (x y : Z) (n : UiNode) : bool :=
  (x1 n <=? x) && (x <=? x2 n) && (y1 n <=? y) && (y <=? y2 n).

(** The label of the chosen node; the last case is the fall-through to
    the final [return "unknown"]. *)
Definition label (n : UiNode) : string :=
  if negb (Py.is_empty (resource_id n)) then resource_id n
  else if negb (Py.is_empty (content_desc n)) then
    class n ++ " '" ++ content_desc n ++ "'"
  else if negb (Py.is_empty (text n)) then
    class n ++ " '" ++ text n ++ "'"
  else if negb (Py.is_empty (class n)) then Py.split_last "." (class n)
  else "unknown".

Definition _find_resource_at_coordinates
    (current_view_hierarchy : list UiNode) (x y : option Z) : string :=
  match x, y, current_view_hierarchy with
  | Some x, Some y, _ :: _ =>
      match filter (covers x y) current_view_hierarchy with
      | n :: rest => label (min_by area n rest)
      | [] => "unknown"
      end
  | _, _, _ => "unknown"
  end.

(** A parsed XML document, as ElementTree gives it. *)
Inductive element : Type :=
| Element (tag : string) (attrib : list (string * string))
          (children : list element).

Definition tag_of (e : element) : string :=
  match e with Element t _ _ => t end.

Definition attrib_of (e : element) : list (string * string) :=
  match e with Element _ a _ => a end.

(** Elements below [e], in document order. *)
Fixpoint descendants (e : element) : list element :=
  match e with
  | Element _ _ cs => flat_map (fun c => c :: descendants c) cs
  end.

(** [root.findall('.//node')]. *)
Definition findall_node (root : element) : list element :=
  filter (fun e => String.eqb (tag_of e) "node") (descendants root).

(** [node.get(name)] and [node.get(name, '')]. *)
Definition attr (name : string) (e : element) : option string :=
  Py.get name (attrib_of e).

Definition attr_or_empty (name : string) (e : element) : string :=
  match attr name e with Some v => v | None => "" end.

(** The body of the loop over the nodes: a node without a non-empty
    bounds attribute, or whose bounds do not match, adds nothing.  [None]
    is an exception raised by [int]. *)
Definition node_entry (node : element) : option (list UiNode) :=
  match attr "bounds" node with
  | Some bounds_str =>
      if Py.is_empty bounds_str then Some []
      else
        match match_bounds bounds_str with
        | Some ((g1, g2, g3, g4), _) =>
            a <- Py.int 10 g1 ;;
            b <- Py.int 10 g2 ;;
            c <- Py.int 10 g3 ;;
            d <- Py.int 10 g4 ;;
            Some [ mk_node a b c d
                     (attr_or_empty "resource-id" node)
                     (attr_or_empty "content-desc" node)
                     (attr_or_empty "text" node)
                     (attr_or_empty "class" node)
                     (attr_or_empty "package" node) ]
        | None => Some []
        end
  | None => Some []
  end.

(** The loop itself, started on the empty list: an exception ends it and
    leaves what was appended before. *)
Fixpoint collect_nodes (nodes : list element) : list UiNode :=
  match nodes with
  | [] => []
  | node :: rest =>
      match node_entry node with
      | Some l => l ++ collect_nodes rest
      | None => []
      end
  end.

(** What [/tmp/window_dump.xml] is when the refresh looks at it: absent,
    present but rejected by [open] or [ET.parse], or a document. *)
Inductive window_dump : Type :=
| Missing
| Unparseable
| Parsed (root : element).

(** What the device and the file system answer to one refresh. *)
Record hierarchy_world : Type := mk_world {
  rm_cmd : run_result;
  dump_cmd : run_result;
  pull_cmd : run_result;
  local_file : window_dump
}.

(** The test on the dump command: the standard output is not empty and
    announces the dump, or the standard error is empty. *)
Definition dump_accepted (stdout stderr : string) : bool :=
  (negb (Py.is_empty stdout) && Py.contains "UI hierchary dumped to" stdout)
  || Py.is_empty stderr.

(** [_update_view_hierarchy]: the new value of [current_view_hierarchy].
    Every exception is caught inside the method. *)
Definition _update_view_hierarchy
    (w : hierarchy_world) (current_view_hierarchy : list UiNode)
  : list UiNode :=
  match rm_cmd w with
  | Completed _ _ =>
      match dump_cmd w with
      | Completed stdout stderr =>
          if dump_accepted stdout stderr then
            match pull_cmd w with
            | Completed _ _ =>
                match local_file w with
                | Parsed root => collect_nodes (findall_node root)
                | Unparseable => current_view_hierarchy
                | Missing => current_view_hierarchy
                end
            | _ => current_view_hierarchy
            end
          else current_view_hierarchy
      | _ => current_view_hierarchy
      end
  | _ => current_view_hierarchy
  end.

(** The recorder object.  [json_output] is the list of elements appended
    to [json_output_file] so far; the file is taken to accept every
    append. *)
Record recorder : Type := mk_recorder {
  current_device : string;
  pending_events : Py.dict pending;
  current_view_hierarchy : list UiNode;
  last_hierarchy_update : Q;
  event_counter : Z;
  current_pkg : string;
  current_activity : string;
  last_known_pkg : string;
  last_known_activity : string;
  update_hierarchy_needed : bool;
  json_output : list json_obj
}.

(** [__init__]. *)
Definition init : recorder :=
  mk_recorder "unknown" [] [] 0%Q 0 "unknown" "unknown" "unknown" "unknown"
    false [].

(** What the clock and the device answer while one line is handled:
    the formatted [datetime.now()], [time.time()], and the package and
    activity that the focus queries extract, if any. *)
Record line_world : Type := mk_line_world {
  timestamp : string;
  now : Q;
  focus : option (string * string)
}.

(** [_get_current_app_info]: the previous values when no query matches
    or one raises. *)
Definition _get_current_app_info (w : line_world) (s : recorder)
  : string * string :=
  match focus w with
  | Some app => app
  | None => (current_pkg s, current_activity s)
  end.

Definition with_coordinates (info : event_info) (e : pending) : pending :=
  mk_pending (p_timestamp e) (p_device e) (p_package e) (p_activity e)
    (match ei_event_type info with Some k => k | None => p_event_type e end)
    (match ei_x info with Some v => Some v | None => p_x e end)
    (match ei_y info with Some v => Some v | None => p_y e end)
    (p_created_at e) (p_resource_id e)
    (match ei_extra_info info with Some v => v | None => p_extra_info e end).

Definition with_app (pkg activity : string) (e : pending) : pending :=
  mk_pending (p_timestamp e) (p_device e)
    (if String.eqb pkg "unknown" then p_package e else pkg)
    (if String.eqb activity "unknown" then p_activity e else activity)
    (p_event_type e) (p_x e) (p_y e) (p_created_at e) (p_resource_id e)
    (p_extra_info e).

(** [_collect_event_data]. *)
Definition _collect_event_data (w : line_world) (line : string) (s : recorder)
  : recorder :=
  if Py.startswith "/dev/input/" line then
    mk_recorder (Py.strip_char ":" line) (pending_events s)
      (current_view_hierarchy s) (last_hierarchy_update s) (event_counter s)
      (current_pkg s) (current_activity s) (last_known_pkg s)
      (last_known_activity s) (update_hierarchy_needed s) (json_output s)
  else
    let info := _parse_event line in
    let kind :=
      match ei_event_type info with Some k => k | None => "UNKNOWN" end in
    let event_id := timestamp w ++ "_" ++ kind ++ "_" ++ current_device s in
    let created :=
      match Py.get event_id (pending_events s) with
      | Some e => e
      | None =>
          mk_pending (timestamp w) (current_device s) (current_pkg s)
            (current_activity s) kind None None (now w) "unknown" ""
      end in
    let event := with_coordinates info created in
    if match ei_event_type info with
       | Some k => in_strings k ["TOUCH_DOWN"; "KEY_DOWN"]
       | None => false
       end
    then
      let '(pkg, activity) := _get_current_app_info w s in
      let changed :=
        negb (String.eqb pkg (last_known_pkg s))
        || negb (String.eqb activity (last_known_activity s)) in
      mk_recorder (current_device s)
        (Py.set event_id (with_app pkg activity event) (pending_events s))
        (current_view_hierarchy s) (last_hierarchy_update s) (event_counter s)
        (if String.eqb pkg "unknown" then current_pkg s else pkg)
        (if String.eqb activity "unknown" then current_activity s else activity)
        (if changed then pkg else last_known_pkg s)
        (if changed then activity else last_known_activity s)
        (changed || update_hierarchy_needed s) (json_output s)
    else
      mk_recorder (current_device s)
        (Py.set event_id event (pending_events s))
        (current_view_hierarchy s) (last_hierarchy_update s) (event_counter s)
        (current_pkg s) (current_activity s) (last_known_pkg s)
        (last_known_activity s) (update_hierarchy_needed s) (json_output s).

(** What the clock and the device answer during one pass of the loop of
    [_process_buffer]: the time read at the top, and the answers to the
    immediate and to the periodic refresh. *)
Record tick_world : Type := mk_tick_world {
  current_time : Q;
  immediate : hierarchy_world;
  periodic : hierarchy_world
}.

(** The record written for an entry that is flushed. *)
Definition finish (h : list UiNode) (e : pending) (event_counter : Z)
  : json_obj :=
  to_json e
    (if is_complete e then _find_resource_at_coordinates h (p_x e) (p_y e)
     else p_resource_id e)
    event_counter.

(** [age > self.buffer_timeout], the only test of the loop. *)
Definition due (t : Q) (event : pending) : bool :=
  Qgtb (t - p_created_at event) buffer_timeout.

(** The [for] loop over [list(pending_events.items())].  The entry is
    popped in the same pass, so its updated [resource_id] is seen in the
    record only. *)
Definition flush (h : list UiNode) (t : Q) (items : Py.dict pending)
    (event_counter : Z) : list (string * json_obj) :=
  flush_loop (due t) (finish h) items event_counter.

(** One pass of the [while] loop of [_process_buffer]. *)
Definition _process_buffer (w : tick_world) (s : recorder) : recorder :=
  let t := current_time w in
  let '(h1, last1) :=
    if update_hierarchy_needed s
    then (_update_view_hierarchy (immediate w) (current_view_hierarchy s), t)
    else (current_view_hierarchy s, last_hierarchy_update s) in
  let '(h2, last2) :=
    if Qgtb (t - last1) 1
    then (_update_view_hierarchy (periodic w) h1, t)
    else (h1, last1) in
  let flushed := flush h2 t (pending_events s) (event_counter s) in
  mk_recorder (current_device s)
    (pop_all (map fst flushed) (pending_events s))
    h2 last2
    (event_counter s + Z.of_nat (length flushed))
    (current_pkg s) (current_activity s) (last_known_pkg s)
    (last_known_activity s) false
    (json_output s ++ map snd flushed).

(** What happens to the recorder: the reader thread handles a line, or
    the buffer thread makes a pass. *)
Inductive action : Type :=
| Line (w : line_world) (line : string)
| Tick (w : tick_world).

Definition step (a : action) (s : recorder) : recorder :=
  match a with
  | Line w line => _collect_event_data w line s
  | Tick w => _process_buffer w s
  end.

Definition run (actions : list action) (s : recorder) : recorder :=
  fold_left (fun s a => step a s) actions s.

End R.

(* ================================================================= *)
(** ** adbpull.py *)

Module Adbpull.

Definition touch_kind (line : string) : option string :=
  if Py.contains "DOWN" line then Some "TOUCH_DOWN"
  else if Py.contains "UP" line then Some "TOUCH_UP"
  else None.

Definition key_kind (line : string) : option string :=
  if Py.contains "DOWN" line then Some "KEY_DOWN"
  else if Py.contains "UP" line then Some "KEY_UP"
  else None.

(** [_parse_event]: each numeric conversion has its own
    [try ... except (ValueError, IndexError): pass].  The outer [None] is
    the [IndexError] of the unguarded [line.split()[-1]] of the
    tracking-id branch, which would leave the method. *)
Definition _parse_event (line : string) : option event_info :=
  if Py.contains "ABS_MT_POSITION_X" line || Py.contains "ABS_X" line then
    match (value <- last_token line ;; parse_value value) with
    | Some v => Some (mk_info (Some v) None None None)
    | None => Some no_info
    end
  else if Py.contains "ABS_MT_POSITION_Y" line || Py.contains "ABS_Y" line then
    match (value <- last_token line ;; parse_value value) with
    | Some v => Some (mk_info None (Some v) None None)
    | None => Some no_info
    end
  else if Py.contains "ABS_MT_PRESSURE" line || Py.contains "ABS_PRESSURE" line then
    match (value <- last_token line ;; parse_value value) with
    | Some pressure =>
        Some (mk_info None None (Some ("Pressure:" ++ Py.str pressure)) None)
    | None => Some no_info
    end
  else if Py.contains "BTN_TOUCH" line then
    Some (mk_info None None None (touch_kind line))
  else if Py.contains "ABS_MT_TRACKING_ID" line then
    value <- last_token line ;;
    if Py.contains "ffffffff" value then
      Some (mk_info None None None (Some "TOUCH_UP"))
    else
      match parse_value value with
      | Some track_id =>
          Some (mk_info None None (Some ("TrackID:" ++ Py.str track_id))
                  (Some "TOUCH_DOWN"))
      | None => Some (mk_info None None None (Some "TOUCH_DOWN"))
      end
  else if Py.contains "EV_SYN SYN_REPORT" line then
    Some (mk_info None None None (Some "MOTION"))
  else if Py.contains "EV_KEY" line then
    if Py.contains "KEY_" line then
      match search_key line with
      | Some key_name =>
          Some (mk_info None None (Some ("Key:" ++ key_name)) (key_kind line))
      | None => Some no_info
      end
    else Some no_info
  else Some no_info.

Record UiNode : Type := mk_node {
  x1 : Z; y1 : Z; x2 : Z; y2 : Z;
  resource_id : string;
  text : string;
  class : string
}.

Definition area (n : UiNode) : Z := (x2 n - x1 n) * (y2 n - y1 n).

Definition covers (x y : Z) (n : UiNode) : bool :=
  (x1 n <=? x) && (x <=? x2 n) && (y1 n <=? y) && (y <=? y2 n).

Definition label (n : UiNode) : string :=
  let text_info :=
    if negb (Py.is_empty (text n)) then " ('" ++ text n ++ "')" else "" in
  if String.eqb (resource_id n) "no-id" && negb (Py.is_empty (class n))
  then Py.split_last "." (class n) ++ text_info
  else resource_id n ++ text_info.

Definition _find_resource_at_coordinates
    (current_view_hierarchy : list UiNode) (x y : option Z) : string :=
  match x, y with
  | Some x, Some y =>
      match filter (covers x y) current_view_hierarchy with
      | n :: rest => label (min_by area n rest)
      | [] => "unknown"
      end
  | _, _ => "unknown"
  end.

Definition not_quote (c : ascii) : bool := negb (Ascii.eqb c dquote).

Definition quote : string := String dquote "".

(** [re.search] for an attribute [name], an equals sign and a quoted
    value without quotes inside: the value of the leftmost match. *)
Fixpoint search_attr (name s : string) : option string :=
  let here :=
    r <- Py.eat (name ++ "=" ++ quote) s ;;
    _ <- Py.eat quote (Py.drop_while not_quote r) ;;
    Some (Py.take_while not_quote r) in
  match here with
  | Some v => Some v
  | None =>
      match s with
      | EmptyString => None
      | String _ s' => search_attr name s'
      end
  end.

Definition _extract_text_from_node (node_str : string) : string :=
  match search_attr "text" node_str with Some v => v | None => "" end.

Definition _extract_class_from_node (node_str : string) : string :=
  match search_attr "class" node_str with Some v => v | None => "" end.

(** The node pattern of [_update_view_hierarchy] reads: the text [<node],
    lazily any characters but [>], the quoted bounds attribute with its
    four numbers, lazily any characters but [>], and optionally the quoted
    resource-id attribute.  It is matched in three parts.  First the lazy
    star before the bounds attribute: it gives up one more character that
    is not [>] each time the rest fails. *)
Fixpoint match_bounds_attr (s : string)
  : option ((string * string * string * string) * string) :=
  let here :=
    r <- Py.eat ("bounds=" ++ quote) s ;;
    m <- match_bounds r ;;
    r' <- Py.eat quote (snd m) ;;
    Some (fst m, r') in
  match here with
  | Some m => Some m
  | None =>
      match s with
      | EmptyString => None
      | String c s' =>
          if Ascii.eqb c ">" then None else match_bounds_attr s'
      end
  end.

(** Then the second lazy star and the optional group: the star takes
    nothing, and the group is tried where the bounds attribute ends. *)
Definition match_resource_id (s : string) : option (string * string) :=
  r <- Py.eat ("resource-id=" ++ quote) s ;;
  r' <- Py.eat quote (Py.drop_while not_quote r) ;;
  Some (Py.take_while not_quote r, r').

Record node_match : Type := mk_match {
  group0 : string;
  bounds : string * string * string * string;
  group6 : option string
}.

(** The whole pattern at the head of [s]. *)
Definition match_node (s : string) : option node_match :=
  r <- Py.eat "<node" s ;;
  m <- match_bounds_attr r ;;
  let '(rid, rest) :=
    match match_resource_id (snd m) with
    | Some (v, rest) => (Some v, rest)
    | None => (None, snd m)
    end in
  Some (mk_match (substring 0 (String.length s - String.length rest) s)
          (fst m) rid).

(** [re.finditer]: the matches from left to right, each search starting
    where the match before ended; [skip] counts the characters that are
    still inside that match. *)
Fixpoint finditer (skip : nat) (s : string) : list node_match :=
  match s with
  | EmptyString => []
  | String _ s' =>
      match skip with
      | S k => finditer k s'
      | O =>
          match match_node s with
          | Some m => m :: finditer (String.length (group0 m) - 1) s'
          | None => finditer 0 s'
          end
      end
  end.

(** The dictionary appended for one match; [None] is an exception raised
    by [int]. *)
Definition node_of (m : node_match) : option UiNode :=
  let '(g1, g2, g3, g4) := bounds m in
  a <- Py.int 10 g1 ;;
  b <- Py.int 10 g2 ;;
  c <- Py.int 10 g3 ;;
  d <- Py.int 10 g4 ;;
  Some (mk_node a b c d
          (match group6 m with
           | Some v => if Py.is_empty v then "no-id" else v
           | None => "no-id"
           end)
          (_extract_text_from_node (group0 m))
          (_extract_class_from_node (group0 m))).

(** The loop over the matches, started on the empty list: an exception
    ends it and leaves what was appended before. *)
Fixpoint collect_nodes (ms : list node_match) : list UiNode :=
  match ms with
  | [] => []
  | m :: rest =>
      match node_of m with
      | Some n => n :: collect_nodes rest
      | None => []
      end
  end.

(** What [/tmp/window_dump.xml] is when the refresh looks at it: absent,
    present but [open] or [read] raises, or its text. *)
Inductive window_dump : Type :=
| Missing
| Unreadable
| Content (xml_content : string).

Record hierarchy_world : Type := mk_world {
  dump_cmd : run_result;
  pull_cmd : run_result;
  local_file : window_dump
}.

(** [_update_view_hierarchy]: the new value of [current_view_hierarchy].
    The whole body runs under [try ... except Exception: pass]. *)
Definition _update_view_hierarchy
    (w : hierarchy_world) (current_view_hierarchy : list UiNode)
  : list UiNode :=
  match dump_cmd w with
  | Completed _ _ =>
      match pull_cmd w with
      | Completed _ _ =>
          match local_file w with
          | Content xml_content => collect_nodes (finditer 0 xml_content)
          | Unreadable => current_view_hierarchy
          | Missing => current_view_hierarchy
          end
      | _ => current_view_hierarchy
      end
  | _ => current_view_hierarchy
  end.

(** The recorder object; [coords] is [self.coords], the last x and y
    seen on the stream. *)
Record recorder : Type := mk_recorder {
  coords : option Z * option Z;
  current_pkg : string;
  current_activity : string;
  current_device : string;
  pending_events : Py.dict pending;
  current_view_hierarchy : list UiNode;
  last_hierarchy_update : Q;
  event_counter : Z;
  json_output : list json_obj
}.

Definition init : recorder :=
  mk_recorder (None, None) "unknown" "unknown" "unknown" [] [] 0%Q 0 [].

(** What the clock and the device answer while one line is handled: the
    formatted [datetime.now()], the three readings of [time.time()] in
    program order, the package and activity that the focus queries
    extract, if any, and the answers to the refresh. *)
Record line_world : Type := mk_line_world {
  timestamp : string;
  now_stored : Q;
  focus : option (string * string);
  now_checked : Q;
  refresh : hierarchy_world;
  now_refreshed : Q
}.

Definition _get_current_app_info (w : line_world) (s : recorder)
  : string * string :=
  match focus w with
  | Some app => app
  | None => (current_pkg s, current_activity s)
  end.

(** [_collect_event_data]; [None] is an exception leaving the method. *)
Definition _collect_event_data (w : line_world) (line : string) (s : recorder)
  : option recorder :=
  if Py.startswith "/dev/input/" line then
    Some (mk_recorder (coords s) (current_pkg s) (current_activity s)
            (Py.strip_char ":" line) (pending_events s)
            (current_view_hierarchy s) (last_hierarchy_update s)
            (event_counter s) (json_output s))
  else
    info <- _parse_event line ;;
    let cx := match ei_x info with Some v => Some v | None => fst (coords s) end in
    let cy := match ei_y info with Some v => Some v | None => snd (coords s) end in
    match ei_event_type info with
    | None =>
        Some (mk_recorder (cx, cy) (current_pkg s) (current_activity s)
                (current_device s) (pending_events s)
                (current_view_hierarchy s) (last_hierarchy_update s)
                (event_counter s) (json_output s))
    | Some kind =>
        let event_id := timestamp w ++ "_" ++ kind ++ "_" ++ current_device s in
        let event :=
          match Py.get event_id (pending_events s) with
          | None =>
              mk_pending (timestamp w) (current_device s) (current_pkg s)
                (current_activity s) kind cx cy (now_stored w) "unknown"
                (match ei_extra_info info with Some v => v | None => "" end)
          | Some e =>
              mk_pending (p_timestamp e) (p_device e) (p_package e)
                (p_activity e) (p_event_type e) cx cy (now_stored w)
                (p_resource_id e)
                (match ei_extra_info info with
                 | Some v => v
                 | None => p_extra_info e
                 end)
          end in
        let pending' := Py.set event_id event (pending_events s) in
        if in_strings kind ["MOTION"; "TOUCH_UP"] then
          let '(pkg, activity) := _get_current_app_info w s in
          let '(h, last) :=
            if Qgtb (now_checked w - last_hierarchy_update s) (3 # 10)
            then (_update_view_hierarchy (refresh w) (current_view_hierarchy s),
                  now_refreshed w)
            else (current_view_hierarchy s, last_hierarchy_update s) in
          Some (mk_recorder (cx, cy) pkg activity (current_device s) pending'
                  h last (event_counter s) (json_output s))
        else
          Some (mk_recorder (cx, cy) (current_pkg s) (current_activity s)
                  (current_device s) pending' (current_view_hierarchy s)
                  (last_hierarchy_update s) (event_counter s) (json_output s))
    end.

(** The record written for an entry that is flushed. *)
Definition finish (h : list UiNode) (e : pending) (event_counter : Z)
  : json_obj :=
  to_json e
    (if is_complete e then _find_resource_at_coordinates h (p_x e) (p_y e)
     else p_resource_id e)
    event_counter.

(** [is_complete or age > self.buffer_timeout], the test of the loop. *)
Definition due (t : Q) (event : pending) : bool :=
  is_complete event || Qgtb (t - p_created_at event) buffer_timeout.

(** The [for] loop over [pending_events.items()]. *)
Definition flush (h : list UiNode) (t : Q) (items : Py.dict pending)
    (event_counter : Z) : list (string * json_obj) :=
  flush_loop (due t) (finish h) items event_counter.

(** One pass of the [while] loop of [_process_buffer], with the time
    read at its top. *)
Definition _process_buffer (current_time : Q) (s : recorder) : recorder :=
  let flushed :=
    flush (current_view_hierarchy s) current_time (pending_events s)
      (event_counter s) in
  mk_recorder (coords s) (current_pkg s) (current_activity s)
    (current_device s)
    (pop_all (map fst flushed) (pending_events s))
    (current_view_hierarchy s) (last_hierarchy_update s)
    (event_counter s + Z.of_nat (length flushed))
    (json_output s ++ map snd flushed).

Inductive action : Type :=
| Line (w : line_world) (line : string)
| Tick (current_time : Q).

Definition step (a : action) (s : recorder) : option recorder :=
  match a with
  | Line w line => _collect_event_data w line s
  | Tick t => Some (_process_buffer t s)
  end.

(** A run stops at the first exception. *)
Fixpoint run (actions : list action) (s : recorder) : option recorder :=
  match actions with
  | [] => Some s
  | a :: rest => s' <- step a s ;; run rest s'
  end.

End Adbpull.

(* ================================================================= *)
(** ** playx.py and replayx.py *)

(** What a replayer does to the outside, in program order. *)
Inductive effect : Type :=
| Print (message : string)
| Shell (cmd : string)
| Sleep (seconds : Q).

(** [s.split(sep)[1]] for a string that starts with [sep], given what
    follows that first [sep]: the text up to the next [sep]. *)
Fixpoint before (sep s : string) : string :=
  if prefix sep s then EmptyString
  else
    match s with
    | EmptyString => EmptyString
    | String c s' => String c (before sep s')
    end.

Definition touch_kinds : list string := ["TOUCH_DOWN"; "TOUCH_UP"; "MOTION"].

Definition key_kinds : list string := ["KEY_DOWN"; "KEY_UP"].

(** [key_map] of [_map_key_name_to_code], the same in both replayers. *)
Definition key_map : Py.dict string :=
  [ ("ENTER", "66"); ("BACK", "4"); ("HOME", "3"); ("MENU", "82");
    ("VOLUME_UP", "24"); ("VOLUME_DOWN", "25") ].

(** How a device command of the replayer ends: it raises, with the text
    of the exception, or it returns its code, output and error text. *)
Inductive shell_result : Type :=
| Raised (message : string)
| Returned (returncode : Z) (stdout stderr : string).

(** What [events_file] is when [load_events] looks at it: absent, present
    but rejected by [open] or [json.load] with the text of the exception,
    or the list of records it holds. *)
Inductive events_source : Type :=
| NoFile
| BadFile (message : string)
| Loaded (events : list json_obj).

Definition newline : string := String "010"%char "".

Module Playx.

Definition _map_key_name_to_code (key_name : string) : option string :=
  Py.get (Py.upper key_name) key_map.

(** [_replay_touch_event]; [result] is the return code and the standard
    error of the tap command, should it be run. *)
Definition _replay_touch_event (device_id : string) (result : Z * string)
    (event : json_obj) : list effect :=
  let x := j_x event in
  let y := j_y event in
  let event_type := j_event_type event in
  match x, y with
  | Some _, Some _ =>
      if String.eqb event_type "TOUCH_DOWN" then
        [ Print ("Replaying " ++ event_type ++ " at X:" ++ Py.fmt x
                 ++ ", Y:" ++ Py.fmt y);
          Shell ("adb -s " ++ device_id ++ " shell input tap " ++ Py.fmt x
                 ++ " " ++ Py.fmt y) ]
        ++ (if fst result =? 0 then []
            else [Print ("Error replaying touch event: " ++ snd result)])
        ++ [Sleep (1 # 10)]
      else if String.eqb event_type "TOUCH_UP" then []
      else if String.eqb event_type "MOTION" then
        [ Print ("Motion event at X:" ++ Py.fmt x ++ ", Y:" ++ Py.fmt y
                 ++ " (not replayed)") ]
      else []
  | _, _ =>
      [ Print ("Skipping " ++ event_type ++ " event at timestamp "
               ++ j_timestamp event ++ " due to null coordinates") ]
  end.

Definition _replay_key_event (device_id : string) (result : Z * string)
    (event : json_obj) : list effect :=
  let extra_info := j_extra_info event in
  if Py.startswith "Key:" extra_info then
    let key_name := before "Key:" (Py.drop 4 extra_info) in
    match _map_key_name_to_code key_name with
    | Some key_code =>
        [ Print ("Replaying " ++ j_event_type event ++ " for key: " ++ key_name
                 ++ " (code: " ++ key_code ++ ")");
          Shell ("adb -s " ++ device_id ++ " shell input keyevent " ++ key_code) ]
        ++ (if fst result =? 0 then []
            else [Print ("Error replaying key event: " ++ snd result)])
    | None => []
    end
  else [].

(** The [for] loop of [replay_events], with [running] left set.
    [event_count] counts the records handled before; [results] gives what
    the device command of each record returns. *)
Fixpoint replay_loop (device_id : string) (results : Z -> Z * string)
    (total event_count : Z) (events : list json_obj) : list effect :=
  match events with
  | [] => []
  | event :: rest =>
      (if in_strings (j_event_type event) touch_kinds
       then _replay_touch_event device_id (results event_count) event
       else if in_strings (j_event_type event) key_kinds
       then _replay_key_event device_id (results event_count) event
       else [])
      ++ [ Print ("Processed event " ++ Py.str (event_count + 1) ++ "/"
                  ++ Py.str total);
           Sleep (5 # 100) ]
      ++ replay_loop device_id results total (event_count + 1) rest
  end.

(** [_check_emulator_connected]. *)
Definition _check_emulator_connected (device_id : string) (devices : shell_result)
  : bool * list effect :=
  match devices with
  | Returned _ stdout _ => (Py.contains device_id stdout, [Shell "adb devices"])
  | Raised e =>
      (false,
       [Shell "adb devices"; Print ("Error checking emulator connection: " ++ e)])
  end.

(** [load_events]: the records loaded when it returns [True], [None]
    when it returns [False]. *)
Definition load_events (events_file : string) (source : events_source)
  : option (list json_obj) * list effect :=
  match source with
  | NoFile =>
      (None, [Print ("Error: Events file '" ++ events_file ++ "' not found.")])
  | BadFile e => (None, [Print ("Error loading events: " ++ e)])
  | Loaded [] => (None, [Print "No events found in the file."])
  | Loaded events =>
      (Some events,
       [Print ("Loaded " ++ Py.str (Z.of_nat (length events)) ++ " events from "
               ++ events_file)])
  end.

(** The command of [_get_current_app_info]; what the method returns, the
    package and the activity in focus or twice the word unknown, is an
    argument of its callers. *)
Definition focus_query (device_id : string) : string :=
  "adb -s " ++ device_id ++ " shell dumpsys window | grep -E "
  ++ String dquote "mCurrentFocus" ++ String dquote "".

Definition same_app (current : string * string) (package activity : string)
  : bool :=
  String.eqb (fst current) package && String.eqb (snd current) activity.

Definition launch_command (device_id package activity : string) : string :=
  "adb -s " ++ device_id ++ " shell am start -n " ++ package ++ "/" ++ activity.

(** [_launch_activity]: [focus_before] and [focus_after] are the answers
    of the two focus queries, [launch] the end of the start command. *)
Definition _launch_activity (device_id package activity : string)
    (focus_before : string * string) (launch : shell_result)
    (focus_after : string * string) : bool * list effect :=
  if same_app focus_before package activity then
    (true,
     [ Shell (focus_query device_id);
       Print ("Target activity " ++ package ++ "/" ++ activity
              ++ " is already open.") ])
  else
    let start :=
      [ Shell (focus_query device_id);
        Print ("Launching " ++ package ++ "/" ++ activity ++ "...");
        Shell (launch_command device_id package activity) ] in
    match launch with
    | Returned returncode _ stderr =>
        if returncode =? 0 then
          let verify := [Sleep 2; Shell (focus_query device_id)] in
          if same_app focus_after package activity then
            (true,
             (start ++ verify
              ++ [Print ("Successfully launched " ++ package ++ "/"
                         ++ activity)])%list)
          else
            (false,
             (start ++ verify
              ++ [Print ("Failed to verify launch of " ++ package ++ "/"
                         ++ activity ++ ". Current: " ++ fst focus_after ++ "/"
                         ++ snd focus_after)])%list)
        else
          (false, (start ++ [Print ("Error launching activity: " ++ stderr)])%list)
    | Raised e =>
        (false, (start ++ [Print ("Error launching activity: " ++ e)])%list)
    end.

Definition close_command (device_id package : string) : string :=
  "adb -s " ++ device_id ++ " shell am force-stop " ++ package.

(** [_close_activity]. *)
Definition _close_activity (device_id package : string) (close : shell_result)
  : bool * list effect :=
  let start :=
    [ Print ("Closing " ++ package ++ "...");
      Shell (close_command device_id package) ] in
  match close with
  | Returned returncode _ stderr =>
      if returncode =? 0
      then (true, (start ++ [Print ("Successfully closed " ++ package)])%list)
      else
        (false, (start ++ [Print ("Error closing activity: " ++ stderr)])%list)
  | Raised e =>
      (false, (start ++ [Print ("Error closing activity: " ++ e)])%list)
  end.

(** What the device and the file system answer to one call of
    [replay_events]. *)
Record replay_world : Type := mk_replay_world {
  devices : shell_result;
  source : events_source;
  focus_before : string * string;
  launch : shell_result;
  focus_after : string * string;
  results : Z -> Z * string;
  close : shell_result
}.

(** [replay_events], with [running] left set during the loop. *)
Definition replay_events (device_id events_file : string) (w : replay_world)
  : list effect :=
  let '(connected, checked) := _check_emulator_connected device_id (devices w) in
  if negb connected then
    checked
    ++ [Print ("Emulator " ++ device_id ++ " not found. Please start the emulator.")]
  else
    match load_events events_file (source w) with
    | (None, loaded) => checked ++ loaded
    | (Some [], loaded) => checked ++ loaded ++ [Print "No events to replay."]
    | (Some (first :: rest), loaded) =>
        let package := j_package first in
        let activity := j_activity first in
        let '(launched, launching) :=
          _launch_activity device_id package activity (focus_before w)
            (launch w) (focus_after w) in
        if negb launched then
          checked ++ loaded ++ launching
          ++ [Print "Failed to launch activity. Aborting replay."]
        else
          let total := Z.of_nat (length (first :: rest)) in
          checked ++ loaded ++ launching
          ++ [Print (newline ++ "Replaying " ++ Py.str total ++ " events...")]
          ++ replay_loop device_id (results w) total 0 (first :: rest)
          ++ [Print (newline ++ "Replay completed.")]
          ++ snd (_close_activity device_id package (close w))
    end.

End Playx.

Module Replayx.

Definition _map_key_name_to_code (key_name : string) : option string :=
  Py.get (Py.upper key_name) key_map.

(** [_replay_touch_event]: the coordinates go into the command as the
    f-string renders them. *)
Definition _replay_touch_event (device_id : string) (event : json_obj)
  : list effect :=
  let x := j_x event in
  let y := j_y event in
  let event_type := j_event_type event in
  if String.eqb event_type "TOUCH_DOWN" then
    [ Print ("Touch down at X:" ++ Py.fmt x ++ ", Y:" ++ Py.fmt y);
      Shell ("adb -s " ++ device_id ++ " shell input tap " ++ Py.fmt x
             ++ " " ++ Py.fmt y);
      Sleep (1 # 10);
      Print ("Touch up at X:" ++ Py.fmt x ++ ", Y:" ++ Py.fmt y) ]
  else if String.eqb event_type "TOUCH_UP" then []
  else if String.eqb event_type "MOTION" then
    [ Print ("Motion event at X:" ++ Py.fmt x ++ ", Y:" ++ Py.fmt y
             ++ " (not replayed)") ]
  else [].

Definition _replay_key_event (device_id : string) (event : json_obj)
  : list effect :=
  let extra_info := j_extra_info event in
  if Py.startswith "Key:" extra_info then
    let key_name := before "Key:" (Py.drop 4 extra_info) in
    match _map_key_name_to_code key_name with
    | Some key_code =>
        [ Print (j_event_type event ++ " for key: " ++ key_name
                 ++ " (code: " ++ key_code ++ ")");
          Shell ("adb -s " ++ device_id ++ " shell input keyevent " ++ key_code) ]
    | None => []
    end
  else [].

(** What the loop of [replay_events] does with one record, once the
    wait computed from its timestamp is over. *)
Definition replay_event (device_id : string) (event : json_obj) : list effect :=
  if in_strings (j_event_type event) touch_kinds
  then _replay_touch_event device_id event
  else if in_strings (j_event_type event) key_kinds
  then _replay_key_event device_id event
  else [].

End Replayx.

(* ================================================================= *)
(** ** Vocabulary of the properties, and sample data *)

(** Some character of the string is not a space. *)
Fixpoint has_word (s : string) : bool :=
  match s with
  | EmptyString => false
  | String c s' => negb (Py.isspace c) || has_word s'
  end.

Definition is_x_report (line : string) : bool :=
  Py.contains "ABS_MT_POSITION_X" line || Py.contains "ABS_X" line.

Definition is_y_report (line : string) : bool :=
  Py.contains "ABS_MT_POSITION_Y" line || Py.contains "ABS_Y" line.

Definition is_pressure_report (line : string) : bool :=
  Py.contains "ABS_MT_PRESSURE" line || Py.contains "ABS_PRESSURE" line.

(** A line names a position or pressure axis: the branches that come
    before the one for [BTN_TOUCH]. *)
Definition is_axis_report (line : string) : bool :=
  is_x_report line || is_y_report line || is_pressure_report line.

Definition null_touch : json_obj :=
  mk_json "12:00:00.000" "/dev/input/event1" "com.example" ".Main"
    "TOUCH_DOWN" None None "unknown" "" 0.

(** The point lies in the rectangle of the node, sides included. *)
Definition r_inside (x y : Z) (n : R.UiNode) : Prop :=
  R.x1 n <= x <= R.x2 n /\ R.y1 n <= y <= R.y2 n.

Definition a_inside (x y : Z) (n : Adbpull.UiNode) : Prop :=
  Adbpull.x1 n <= x <= Adbpull.x2 n /\ Adbpull.y1 n <= y <= Adbpull.y2 n.

Definition screen : R.UiNode :=
  R.mk_node 0 0 1080 1920 "" "" "" "android.widget.FrameLayout" "com.example".

Definition ok_button : R.UiNode :=
  R.mk_node 0 0 100 40 "" "" "OK" "android.widget.Button" "com.example".

(** A command did not return: it timed out or raised otherwise. *)
Definition raised (r : run_result) : Prop :=
  r = TimeoutExpired \/ r = OtherError.

(** The ways a refresh of r.py fails: a command raises, the dump command
    is not accepted, the pulled document is missing, or it is rejected
    by the XML parser. *)
Inductive r_refresh_fails (w : R.hierarchy_world) : Prop :=
| r_rm_raised : raised (R.rm_cmd w) -> r_refresh_fails w
| r_dump_raised : raised (R.dump_cmd w) -> r_refresh_fails w
| r_dump_refused (stdout stderr : string) :
    R.dump_cmd w = Completed stdout stderr ->
    R.dump_accepted stdout stderr = false -> r_refresh_fails w
| r_pull_raised : raised (R.pull_cmd w) -> r_refresh_fails w
| r_document_missing : R.local_file w = R.Missing -> r_refresh_fails w
| r_document_malformed : R.local_file w = R.Unparseable -> r_refresh_fails w.

(** The ways a refresh of adbpull.py fails: a command raises, or the
    pulled document is missing or cannot be read. *)
Inductive a_refresh_fails (w : Adbpull.hierarchy_world) : Prop :=
| a_dump_raised : raised (Adbpull.dump_cmd w) -> a_refresh_fails w
| a_pull_raised : raised (Adbpull.pull_cmd w) -> a_refresh_fails w
| a_document_missing : Adbpull.local_file w = Adbpull.Missing -> a_refresh_fails w
| a_document_unreadable :
    Adbpull.local_file w = Adbpull.Unreadable -> a_refresh_fails w.

Definition truncated_document : string := "<?xml version='1.0'?><hierarchy rotation=".

Definition a_ok_button : Adbpull.UiNode :=
  Adbpull.mk_node 0 0 100 40 "no-id" "OK" "android.widget.Button".

Definition at_0_0 : R.line_world := R.mk_line_world "12:00:00.000" 0%Q None.

Definition quiet : R.hierarchy_world :=
  R.mk_world (Completed "" "") (Completed "" "") (Completed "" "") R.Missing.

Definition a_complete_state : Adbpull.recorder :=
  Adbpull.mk_recorder (Some 50, Some 20) "com.example" ".Main"
    "/dev/input/event1"
    [ ("12:00:00.000_MOTION_/dev/input/event1",
       mk_pending "12:00:00.000" "/dev/input/event1" "com.example" ".Main"
         "MOTION" (Some 50) (Some 20) 0%Q "unknown" "") ]
    [a_ok_button] 0%Q 0 [].

Definition at_1_0 : Adbpull.line_world :=
  Adbpull.mk_line_world "12:00:00.000" 0%Q None 0%Q
    (Adbpull.mk_world (Completed "" "") (Completed "" "") Adbpull.Missing) 0%Q.

Definition a_doc_world : Adbpull.hierarchy_world :=
  Adbpull.mk_world (Completed "" "") (Completed "" "")
    (Adbpull.Content
       ("<node text=" ++ Adbpull.quote ++ "OK" ++ Adbpull.quote
        ++ " class=" ++ Adbpull.quote ++ "android.widget.Button" ++ Adbpull.quote
        ++ " bounds=" ++ Adbpull.quote ++ "[0,0][200,80]" ++ Adbpull.quote
        ++ " />")).

Definition a_line_at (stamp : string) (t : Q) : Adbpull.line_world :=
  Adbpull.mk_line_world stamp t None t a_doc_world t.

Definition r_touch_entry : pending :=
  mk_pending "12:00:00.000" "/dev/input/event1" "com.example" ".Main"
    "TOUCH_DOWN" None None 0%Q "unknown" "".

Definition r_touch_state : R.recorder :=
  R.mk_recorder "/dev/input/event1"
    [("12:00:00.000_TOUCH_DOWN_/dev/input/event1", r_touch_entry)]
    [screen; ok_button] 0%Q 0 "com.example" ".Main" "com.example" ".Main"
    false [].

Definition a_motion_run : list Adbpull.action :=
  [ Adbpull.Line (a_line_at "12:00:00.000" 0) "EV_ABS ABS_MT_POSITION_X 50";
    Adbpull.Line (a_line_at "12:00:00.000" 0) "EV_ABS ABS_MT_POSITION_Y 20";
    Adbpull.Line (a_line_at "12:00:00.000" 0) "EV_SYN SYN_REPORT";
    Adbpull.Tick 0 ].

(** A dictionary holds each key once. *)
Definition wf_dict {V : Type} (d : Py.dict V) : Prop := NoDup (map fst d).

(** Every pending entry, every written record, has its kind in [K]. *)
Definition entries_in (K : list string) (d : Py.dict pending) : Prop :=
  forall id e, In (id, e) d -> In (p_event_type e) K.

Definition records_in (K : list string) (out : list json_obj) : Prop :=
  forall r, In r out -> In (j_event_type r) K.

Definition r_kinds_ok (K : list string) (s : R.recorder) : Prop :=
  entries_in K (R.pending_events s) /\ records_in K (R.json_output s).

Definition a_kinds_ok (K : list string) (s : Adbpull.recorder) : Prop :=
  entries_in K (Adbpull.pending_events s) /\ records_in K (Adbpull.json_output s).

(* ================================================================= *)
(** ** Vocabulary of the further properties *)

(** The integers [c], [c + 1], ... in a list of length [n]. *)
Fixpoint count_up (c : Z) (n : nat) : list Z :=
  match n with
  | O => []
  | S n' => c :: count_up (c + 1) n'
  end.

(** Every character of the string passes the test. *)
Fixpoint all_chars (p : ascii -> bool) (s : string) : bool :=
  match s with
  | EmptyString => true
  | String c s' => p c && all_chars p s'
  end.

(** The records written so far are numbered from 0, and the counter is
    their number. *)
Definition numbered (event_counter : Z) (out : list json_obj) : Prop :=
  map j_event_id out = count_up 0 (length out)
  /\ event_counter = Z.of_nat (length out).

(** The records of a list of entries, numbered from [c] on. *)
Fixpoint write_from (record : pending -> Z -> json_obj) (c : Z)
    (events : list pending) : list json_obj :=
  match events with
  | [] => []
  | e :: rest => record e c :: write_from record (c + 1) rest
  end.

(** What a fragment can hold: x alone, y alone, or no coordinate. *)
Definition fragment_shape (i : event_info) : Prop :=
  (exists v, i = mk_info (Some v) None None None)
  \/ (exists v, i = mk_info None (Some v) None None)
  \/ (ei_x i = None /\ ei_y i = None).

(** The codes of the key table. *)
Definition key_codes : list string := ["66"; "4"; "3"; "82"; "24"; "25"].

Definition sample_tap : json_obj :=
  mk_json "12:00:00.000" "/dev/input/event1" "com.example" ".Main"
    "TOUCH_DOWN" (Some 50) (Some 20) "Button ('OK')" "" 0.

(** The four coordinates of a node are not negative. *)
Definition r_on_screen (n : R.UiNode) : Prop :=
  0 <= R.x1 n /\ 0 <= R.y1 n /\ 0 <= R.x2 n /\ 0 <= R.y2 n.

Definition a_on_screen (n : Adbpull.UiNode) : Prop :=
  0 <= Adbpull.x1 n /\ 0 <= Adbpull.y1 n /\ 0 <= Adbpull.x2 n
  /\ 0 <= Adbpull.y2 n.

(** A non-empty string of decimal digits: what a group of digits of a
    regular expression captures. *)
Definition digit_string (s : string) : Prop :=
  s <> EmptyString /\ all_chars Py.is_digit s = true.

Definition ok_button_twin : R.UiNode :=
  R.mk_node 0 0 100 40 "com.example:id/twin" "" "" "android.view.View"
    "com.example".

(** The line of an action was stamped by the clock: [strftime] with
    hours, minutes, seconds and microseconds, less its last three
    characters, is twelve characters long. *)
Definition stamped (a : R.action) : Prop :=
  match a with
  | R.Line w _ => String.length (R.timestamp w) = 12%nat
  | R.Tick _ => True
  end.

(** What holds of every entry of the buffer of r.py: its key is made of
    a stamp, its kind and a device; an entry with one of the five kinds
    has no coordinate; the resource_id is still the initial one. *)
Definition r_entry_ok (k : string) (e : pending) : Prop :=
  (exists stamp device,
     k = stamp ++ "_" ++ p_event_type e ++ "_" ++ device
     /\ String.length stamp = 12%nat)
  /\ In (p_event_type e) ("UNKNOWN" :: event_kinds)
  /\ (p_event_type e <> "UNKNOWN" -> p_x e = None /\ p_y e = None)
  /\ p_resource_id e = "unknown".

(** A record with one of the five kinds has no coordinate and no
    resolved resource_id. *)
Definition r_record_ok (r : json_obj) : Prop :=
  In (j_event_type r) event_kinds ->
  j_x r = None /\ j_y r = None /\ j_resource_id r = "unknown".

Definition r_flagged_state : R.recorder :=
  R.mk_recorder "/dev/input/event1" [] [screen] 0%Q 0 "com.example" ".Main"
    "com.example" ".Main" true [].

Definition r_touch_run : list R.action :=
  [ R.Line at_0_0 "EV_ABS ABS_MT_POSITION_X 0x64";
    R.Line at_0_0 "EV_ABS ABS_MT_POSITION_Y 0x32";
    R.Line at_0_0 "EV_KEY BTN_TOUCH DOWN";
    R.Tick (R.mk_tick_world 1 quiet quiet) ].

(** The last character of a string. *)
Fixpoint last_char (s : string) : option ascii :=
  match s with
  | EmptyString => None
  | String c EmptyString => Some c
  | String _ s' => last_char s'
  end.

Definition sample_world : Playx.replay_world :=
  Playx.mk_replay_world (Returned 0 "emulator-5554 device" "")
    (Loaded [sample_tap]) ("com.example", ".Main") (Returned 0 "" "")
    ("com.example", ".Main") (fun _ => (0, "")) (Returned 0 "" "").

(** The three things [replay_events] needs before it replays: the
    emulator is listed, the file holds records, the launch is verified. *)
Definition ready (device_id events_file : string) (w : Playx.replay_world)
    (first : json_obj) (rest : list json_obj) : Prop :=
  fst (Playx._check_emulator_connected device_id (Playx.devices w)) = true
  /\ Playx.source w = Loaded (first :: rest)
  /\ fst (Playx._launch_activity device_id (j_package first) (j_activity first)
            (Playx.focus_before w) (Playx.launch w) (Playx.focus_after w))
     = true.

(* ================================================================= *)
(** * Properties *)

(** ** Strings *)

Section StringFacts.

Lemma upper_char_idempotent (c : ascii) :
  Py.upper_char (Py.upper_char c) = Py.upper_char c.
Proof.
  destruct c as [[] [] [] [] [] [] [] []]; reflexivity.
Qed.

Lemma upper_idempotent (s : string) : Py.upper (Py.upper s) = Py.upper s.
Proof.
  induction s as [| c s IH]; simpl.
  - reflexivity.
  - now rewrite upper_char_idempotent, IH.
Qed.

Lemma prefix_has_word (sub s : string) :
  prefix sub s = true -> has_word sub = true -> has_word s = true.
Proof.
  revert s; induction sub as [| a sub IH]; intros s Hp Hw.
  - discriminate.
  - destruct s as [| b s]; simpl in Hp; [discriminate |].
    destruct (ascii_dec a b) as [-> | _]; [| discriminate].
    simpl in *. destruct (Py.isspace b); simpl in *; auto.
Qed.

Lemma contains_has_word (sub s : string) :
  Py.contains sub s = true -> has_word sub = true -> has_word s = true.
Proof.
  intros Hc Hw; induction s as [| c s IH].
  - change (prefix sub "" || false = true) in Hc.
    rewrite orb_false_r in Hc. eauto using prefix_has_word.
  - change (prefix sub (String c s) || Py.contains sub s = true) in Hc.
    apply orb_true_iff in Hc as [Hp | Hc].
    + eauto using prefix_has_word.
    + simpl. rewrite (IH Hc). apply orb_true_r.
Qed.

Lemma split_from_not_nil (s cur : string) :
  Py.is_empty cur = false \/ has_word s = true -> Py.split_from cur s <> [].
Proof.
  revert cur; induction s as [| c s IH]; intros cur H; simpl.
  - destruct H as [H | H]; [rewrite H | ]; discriminate.
  - destruct (Py.isspace c) eqn:Hc.
    + destruct (Py.is_empty cur) eqn:He; [| discriminate].
      apply IH. destruct H as [H | H]; [discriminate |].
      simpl in H. rewrite Hc in H. now right.
    + apply IH. left. now destruct cur.
Qed.

Lemma last_item_some {A : Type} (l : list A) :
  l <> [] -> exists a, Py.last_item l = Some a.
Proof.
  induction l as [| a l IH]; intros H; [congruence |].
  destruct l as [| b l]; [now exists a |].
  apply IH. discriminate.
Qed.

(** A line that contains a marker made of letters has a last token: the
    [IndexError] of [line.split()[-1]] cannot occur on it. *)
Lemma marked_line_has_token (marker line : string) :
  has_word marker = true -> Py.contains marker line = true ->
  exists tok, last_token line = Some tok.
Proof.
  intros Hw Hc. apply last_item_some, split_from_not_nil.
  right. eauto using contains_has_word.
Qed.

End StringFacts.

(** ** The tokenizers *)

Lemma position_report_has_token (line : string) :
  is_x_report line || is_y_report line = true ->
  exists tok, last_token line = Some tok.
Proof.
  unfold is_x_report, is_y_report. intros H.
  repeat (apply orb_true_iff in H as [H | H]);
    eapply marked_line_has_token; try exact H; reflexivity.
Qed.

(** C7: on a line that reports a position on the X axis (respectively on
    the Y axis, for a line that names no X axis), both tokenizers return
    normally, and the fragment holds exactly the field x (respectively y),
    set to the last whitespace-separated token of the line read in base 16
    after its prefix when it starts with 0x, and in base 10 otherwise; when
    that reading fails the fragment is empty. *)
Theorem C7_position_report (line : string) :
  is_x_report line || is_y_report line = true ->
  exists tok, Py.last_item (Py.split line) = Some tok /\
    let v := if Py.startswith "0x" tok then Py.int 16 (Py.drop 2 tok)
             else Py.int 10 tok in
    let fragment := if is_x_report line then mk_info v None None None
                    else mk_info None v None None in
    R._parse_event line = fragment /\
    Adbpull._parse_event line = Some fragment.
Proof.
  intros H. destruct (position_report_has_token line H) as [tok Htok].
  exists tok. split; [exact Htok |].
  unfold R._parse_event, Adbpull._parse_event.
  fold (is_x_report line) (is_y_report line).
  rewrite Htok. unfold parse_value.
  destruct (is_x_report line); simpl in H |- *.
  - destruct (if Py.startswith "0x" tok then _ else _); auto.
  - rewrite H. destruct (if Py.startswith "0x" tok then _ else _); auto.
Qed.

Lemma C7_position_report_witness :
  exists tok, Py.last_item (Py.split "EV_ABS ABS_MT_POSITION_Y 0x32") = Some tok /\
    R._parse_event "EV_ABS ABS_MT_POSITION_Y 0x32"
      = mk_info None
          (if Py.startswith "0x" tok then Py.int 16 (Py.drop 2 tok)
           else Py.int 10 tok) None None.
Proof.
  destruct (C7_position_report "EV_ABS ABS_MT_POSITION_Y 0x32" eq_refl)
    as [tok [Htok [HR _]]].
  exists tok. split; [exact Htok | exact HR].
Defined.

Example parse_samples :
  R._parse_event "EV_ABS ABS_MT_POSITION_X 0x64" = mk_info (Some 100) None None None /\
  R._parse_event "EV_ABS ABS_MT_POSITION_Y 50" = mk_info None (Some 50) None None /\
  R._parse_event "EV_ABS ABS_MT_POSITION_X 000001a4" = no_info /\
  Adbpull._parse_event "EV_ABS ABS_X 0xzz" = Some no_info /\
  Adbpull._parse_event "EV_ABS ABS_Y -0x10" = Some no_info /\
  Adbpull._parse_event "EV_ABS ABS_Y 0x-10" = Some (mk_info None (Some (-16)) None None).
Proof. repeat split; reflexivity. Qed.

(** C10, as stated, fails: a line that holds [BTN_TOUCH] and the name of a
    position axis is read as a position report by r.py and gets no kind. *)
Lemma C10_counterexample :
  ~ (forall line, Py.contains "BTN_TOUCH" line = true ->
       ei_event_type (R._parse_event line)
       = Some (if Py.contains "DOWN" line then "TOUCH_DOWN" else "TOUCH_UP")).
Proof.
  intros H. specialize (H "BTN_TOUCH ABS_X 5" eq_refl). discriminate H.
Qed.

(** C10, amended: in r.py a line that contains [BTN_TOUCH] and names no
    position or pressure axis gets the kind TOUCH_DOWN when it contains
    [DOWN] and TOUCH_UP otherwise, and nothing else; when it contains
    neither [DOWN] nor [UP], r.py gives it TOUCH_UP while adbpull.py
    returns an empty fragment. *)
Theorem C10_btn_touch_kind (line : string) :
  Py.contains "BTN_TOUCH" line = true ->
  is_axis_report line = false ->
  R._parse_event line
  = mk_info None None None
      (Some (if Py.contains "DOWN" line then "TOUCH_DOWN" else "TOUCH_UP"))
  /\ (Py.contains "DOWN" line = false -> Py.contains "UP" line = false ->
      ei_event_type (R._parse_event line) = Some "TOUCH_UP"
      /\ Adbpull._parse_event line = Some no_info).
Proof.
  intros Hb Ha. unfold is_axis_report in Ha.
  apply orb_false_iff in Ha as [Ha Hp]. apply orb_false_iff in Ha as [Hx Hy].
  unfold is_x_report, is_y_report, is_pressure_report in *.
  unfold R._parse_event, Adbpull._parse_event, Adbpull.touch_kind.
  rewrite Hx, Hy, Hp, Hb. split; [reflexivity |].
  intros Hd Hu. rewrite Hd, Hu. split; reflexivity.
Qed.

Lemma C10_btn_touch_kind_witness :
  R._parse_event "EV_KEY BTN_TOUCH 0000" = mk_info None None None (Some "TOUCH_UP")
  /\ Adbpull._parse_event "EV_KEY BTN_TOUCH 0000" = Some no_info.
Proof.
  destruct (C10_btn_touch_kind "EV_KEY BTN_TOUCH 0000" eq_refl eq_refl)
    as [HR Hgarbled].
  split; [exact HR |].
  exact (proj2 (Hgarbled eq_refl eq_refl)).
Defined.

(** ** The replayers *)

(** C9: the code of a key name is the code of its upper-case form, in
    both replayers; it is the entry of the table for the upper-case form
    (ENTER 66, BACK 4, HOME 3, MENU 82, VOLUME_UP 24, VOLUME_DOWN 25) and
    [None] for any other name, so that [back] maps to 4. *)
Theorem C9_key_code_ignores_case (s : string) :
  Playx._map_key_name_to_code s = Playx._map_key_name_to_code (Py.upper s)
  /\ Replayx._map_key_name_to_code s = Replayx._map_key_name_to_code (Py.upper s)
  /\ Replayx._map_key_name_to_code s = Playx._map_key_name_to_code s
  /\ Playx._map_key_name_to_code s
     = (let u := Py.upper s in
        if String.eqb u "ENTER" then Some "66"
        else if String.eqb u "BACK" then Some "4"
        else if String.eqb u "HOME" then Some "3"
        else if String.eqb u "MENU" then Some "82"
        else if String.eqb u "VOLUME_UP" then Some "24"
        else if String.eqb u "VOLUME_DOWN" then Some "25"
        else None)
  /\ Playx._map_key_name_to_code "back" = Some "4".
Proof.
  unfold Playx._map_key_name_to_code, Replayx._map_key_name_to_code.
  rewrite upper_idempotent. repeat split; reflexivity.
Qed.

(** C8, the record on which replayx.py departs from it: a TOUCH_DOWN
    with null coordinates makes replayx.py run a tap command built from
    them. *)
Theorem C8_replayx_taps_null_coordinates :
  Replayx.replay_event "emulator-5554" null_touch
  = [ Print "Touch down at X:None, Y:None";
      Shell "adb -s emulator-5554 shell input tap None None";
      Sleep (1 # 10);
      Print "Touch up at X:None, Y:None" ].
Proof. reflexivity. Qed.

(** playx.py does what C8 says: a touch record with a null coordinate
    only prints the warning, and the loop goes on with the records that
    follow. *)
Lemma playx_skips_null_coordinates
    (device_id : string) (results : Z -> Z * string) (total count : Z)
    (event : json_obj) (rest : list json_obj) :
  in_strings (j_event_type event) touch_kinds = true ->
  j_x event = None \/ j_y event = None ->
  Playx.replay_loop device_id results total count (event :: rest)
  = ([ Print ("Skipping " ++ j_event_type event ++ " event at timestamp "
              ++ j_timestamp event ++ " due to null coordinates");
       Print ("Processed event " ++ Py.str (count + 1) ++ "/" ++ Py.str total);
       Sleep (5 # 100) ]
     ++ Playx.replay_loop device_id results total (count + 1) rest)%list.
Proof.
  intros Hk Hnull. cbn [Playx.replay_loop]. rewrite Hk.
  unfold Playx._replay_touch_event.
  destruct Hnull as [-> | ->]; [| destruct (j_x event)]; reflexivity.
Qed.

(** ** The hierarchy tracker *)

Section SmallestNode.
Context {A : Type} (key : A -> Z).

Lemma min_by_least (l : list A) (best : A) :
  In (min_by key best l) (best :: l)
  /\ forall m, In m (best :: l) -> key (min_by key best l) <= key m.
Proof.
  revert best; induction l as [| a l IH]; intros best; simpl.
  - split; [now left |]. intros m [<- | []]. lia.
  - destruct (IH (if key a <? key best then a else best)) as [Hin Hle].
    split.
    + destruct Hin as [Hin | Hin]; [| now right; right].
      rewrite <- Hin. destruct (key a <? key best); auto.
    + intros m Hm.
      assert (Hb : key (min_by key (if key a <? key best then a else best) l)
                   <= key (if key a <? key best then a else best))
        by (apply Hle; now left).
      destruct Hm as [<- | [<- | Hm]].
      * destruct (Z.ltb_spec (key a) (key best)); lia.
      * destruct (Z.ltb_spec (key a) (key best)); lia.
      * apply Hle. now right.
Qed.

(** The node chosen among those that pass a test: it is in the list,
    passes the test, and no node of the list that passes has a smaller
    key. *)
Lemma min_by_filter (p : A -> bool) (h : list A) (n : A) (rest : list A) :
  filter p h = n :: rest ->
  In (min_by key n rest) h /\ p (min_by key n rest) = true
  /\ forall m, In m h -> p m = true -> key (min_by key n rest) <= key m.
Proof.
  intros Hf. destruct (min_by_least rest n) as [Hin Hle].
  rewrite <- Hf in Hin, Hle.
  apply filter_In in Hin as [Hin Hp].
  repeat split; trivial.
  intros m Hm Hpm. apply Hle, filter_In. now split.
Qed.

Lemma filter_nil_none (p : A -> bool) (h : list A) :
  (forall n, In n h -> p n = false) -> filter p h = [].
Proof.
  induction h as [| a h IH]; intros H; simpl; [reflexivity |].
  rewrite (H a (or_introl eq_refl)). apply IH. intros n Hn. apply H. now right.
Qed.
End SmallestNode.

Lemma r_covers_inside (x y : Z) (n : R.UiNode) :
  R.covers x y n = true <-> r_inside x y n.
Proof. unfold R.covers, r_inside. lia. Qed.

Lemma a_covers_inside (x y : Z) (n : Adbpull.UiNode) :
  Adbpull.covers x y n = true <-> a_inside x y n.
Proof. unfold Adbpull.covers, a_inside. lia. Qed.

Lemma not_covers_false {A : Type} (p : A -> bool) (P : A -> Prop) (h : list A) :
  (forall n, p n = true <-> P n) ->
  (forall n, In n h -> ~ P n) -> forall n, In n h -> p n = false.
Proof.
  intros Hp H n Hn. destruct (p n) eqn:E; [| reflexivity].
  exfalso. apply (H n Hn). now apply Hp.
Qed.

(** C5: in both recorders, when some node of the snapshot contains the
    point the answer is the label of a containing node whose area
    (x2-x1)*(y2-y1) is least among the containing nodes; when no node
    contains the point, and so when the snapshot is empty, the answer is
    the string unknown. *)
Theorem C5_resolve_smallest_containing (x y : Z) :
  (forall h, (exists n, In n h /\ r_inside x y n) ->
     exists n, In n h /\ r_inside x y n
       /\ (forall m, In m h -> r_inside x y m -> R.area n <= R.area m)
       /\ R._find_resource_at_coordinates h (Some x) (Some y) = R.label n)
  /\ (forall h, (forall n, In n h -> ~ r_inside x y n) ->
        R._find_resource_at_coordinates h (Some x) (Some y) = "unknown")
  /\ (forall ox oy, R._find_resource_at_coordinates [] ox oy = "unknown")
  /\ (forall h, (exists n, In n h /\ a_inside x y n) ->
        exists n, In n h /\ a_inside x y n
          /\ (forall m, In m h -> a_inside x y m ->
                Adbpull.area n <= Adbpull.area m)
          /\ Adbpull._find_resource_at_coordinates h (Some x) (Some y)
             = Adbpull.label n)
  /\ (forall h, (forall n, In n h -> ~ a_inside x y n) ->
        Adbpull._find_resource_at_coordinates h (Some x) (Some y) = "unknown")
  /\ (forall ox oy, Adbpull._find_resource_at_coordinates [] ox oy = "unknown").
Proof.
  repeat apply conj.
  - intros h [n0 [Hin0 Hc0]]. unfold R._find_resource_at_coordinates.
    destruct h as [| a h']; [destruct Hin0 |]. set (h := a :: h') in *.
    destruct (filter (R.covers x y) h) as [| n rest] eqn:Hf.
    + assert (Hn0 : In n0 (filter (R.covers x y) h))
        by (apply filter_In; split; [assumption | now apply r_covers_inside]).
      rewrite Hf in Hn0. destruct Hn0.
    + destruct (min_by_filter R.area _ _ _ _ Hf) as [Hin [Hc Hle]].
      exists (min_by R.area n rest).
      split; [exact Hin |]. split; [now apply r_covers_inside |].
      split; [| reflexivity].
      intros m Hm Hcm. apply Hle; [assumption | now apply r_covers_inside].
  - intros h Hnone. unfold R._find_resource_at_coordinates.
    destruct h as [| a h']; [reflexivity |].
    rewrite filter_nil_none; [reflexivity |].
    eapply not_covers_false; [apply r_covers_inside | exact Hnone].
  - intros [ox|] [oy|]; reflexivity.
  - intros h [n0 [Hin0 Hc0]]. unfold Adbpull._find_resource_at_coordinates.
    destruct (filter (Adbpull.covers x y) h) as [| n rest] eqn:Hf.
    + assert (Hn0 : In n0 (filter (Adbpull.covers x y) h))
        by (apply filter_In; split; [assumption | now apply a_covers_inside]).
      rewrite Hf in Hn0. destruct Hn0.
    + destruct (min_by_filter Adbpull.area _ _ _ _ Hf) as [Hin [Hc Hle]].
      exists (min_by Adbpull.area n rest).
      split; [exact Hin |]. split; [now apply a_covers_inside |].
      split; [| reflexivity].
      intros m Hm Hcm. apply Hle; [assumption | now apply a_covers_inside].
  - intros h Hnone. unfold Adbpull._find_resource_at_coordinates.
    rewrite filter_nil_none; [reflexivity |].
    eapply not_covers_false; [apply a_covers_inside | exact Hnone].
  - intros [ox|] [oy|]; reflexivity.
Qed.

Lemma C5_resolve_smallest_containing_witness :
  exists n, In n [screen; ok_button] /\ r_inside 50 20 n
    /\ (forall m, In m [screen; ok_button] -> r_inside 50 20 m ->
          R.area n <= R.area m)
    /\ R._find_resource_at_coordinates [screen; ok_button] (Some 50) (Some 20)
       = R.label n.
Proof.
  apply (proj1 (C5_resolve_smallest_containing 50 20) [screen; ok_button]).
  exists screen. split; [now left |]. unfold r_inside, screen; simpl. lia.
Defined.

Example resolve_samples :
  R._find_resource_at_coordinates [screen; ok_button] (Some 50) (Some 20)
  = "android.widget.Button 'OK'"
  /\ R._find_resource_at_coordinates [screen; ok_button] (Some 500) (Some 20)
     = "FrameLayout"
  /\ R._find_resource_at_coordinates [ok_button] (Some 500) (Some 20) = "unknown".
Proof. repeat split; reflexivity. Qed.

(** C6, as stated, fails in adbpull.py: a document cut short after its
    first tag is scanned like any other text, the snapshot becomes empty,
    and a query that found the button before finds nothing after. *)
Lemma C6_counterexample :
  let w := Adbpull.mk_world (Completed "" "") (Completed "" "")
             (Adbpull.Content truncated_document) in
  Adbpull._update_view_hierarchy w [a_ok_button] = []
  /\ Adbpull._find_resource_at_coordinates [a_ok_button] (Some 50) (Some 20)
     = "Button ('OK')"
  /\ Adbpull._find_resource_at_coordinates
       (Adbpull._update_view_hierarchy w [a_ok_button]) (Some 50) (Some 20)
     = "unknown".
Proof. repeat split; reflexivity. Qed.

(** C6, amended: in r.py a refresh in which a command raises, the dump is
    not accepted, the document is missing or the XML parser rejects it
    leaves the snapshot, and so every query, as it was; in adbpull.py the
    same holds when a command raises or the document is missing or cannot
    be read, while a document that can be read is never rejected: the
    snapshot becomes the list of the nodes its pattern finds in the text,
    whatever the snapshot was. *)
Theorem C6_failed_refresh_keeps_snapshot :
  (forall w h, r_refresh_fails w ->
     R._update_view_hierarchy w h = h
     /\ forall x y, R._find_resource_at_coordinates
                      (R._update_view_hierarchy w h) x y
                    = R._find_resource_at_coordinates h x y)
  /\ (forall w h, a_refresh_fails w ->
        Adbpull._update_view_hierarchy w h = h
        /\ forall x y, Adbpull._find_resource_at_coordinates
                         (Adbpull._update_view_hierarchy w h) x y
                       = Adbpull._find_resource_at_coordinates h x y)
  /\ (forall out1 err1 out2 err2 xml_content h,
        Adbpull._update_view_hierarchy
          (Adbpull.mk_world (Completed out1 err1) (Completed out2 err2)
             (Adbpull.Content xml_content)) h
        = Adbpull.collect_nodes (Adbpull.finditer 0 xml_content)).
Proof.
  split; [| split].
  - intros w h Hfail.
    assert (E : R._update_view_hierarchy w h = h).
    { unfold R._update_view_hierarchy.
      destruct Hfail as [[H | H] | [H | H] | out err H Hacc | [H | H] | H | H];
        rewrite ?H, ?Hacc;
        repeat match goal with
               | |- context [match ?r with _ => _ end] => destruct r
               end; try reflexivity; try congruence.
      all: injection H as -> ->; rewrite Hacc; reflexivity. }
    split; [exact E |]. intros x y. now rewrite E.
  - intros w h Hfail.
    assert (E : Adbpull._update_view_hierarchy w h = h).
    { unfold Adbpull._update_view_hierarchy.
      destruct Hfail as [[H | H] | [H | H] | H | H]; rewrite ?H;
        repeat match goal with
               | |- context [match ?r with _ => _ end] => destruct r
               end; reflexivity. }
    split; [exact E |]. intros x y. now rewrite E.
  - reflexivity.
Qed.

Lemma C6_failed_refresh_keeps_snapshot_witness :
  let w := R.mk_world (Completed "" "") TimeoutExpired (Completed "" "")
             R.Missing in
  R._update_view_hierarchy w [screen; ok_button] = [screen; ok_button]
  /\ forall x y,
       R._find_resource_at_coordinates
         (R._update_view_hierarchy w [screen; ok_button]) x y
       = R._find_resource_at_coordinates [screen; ok_button] x y.
Proof.
  apply (proj1 C6_failed_refresh_keeps_snapshot).
  apply r_dump_raised. left. reflexivity.
Defined.

(** ** Dictionaries *)

Section DictFacts.
Context {V : Type}.
Implicit Types (d : Py.dict V) (k : string) (v : V).

Lemma get_in k v d : Py.get k d = Some v -> In (k, v) d.
Proof.
  induction d as [| [k' v'] d IH]; simpl; [discriminate |].
  destruct (String.eqb_spec k k') as [-> | _].
  - intros [= ->]. now left.
  - intros H. right. now apply IH.
Qed.

Lemma get_none_not_in k d : Py.get k d = None <-> ~ In k (map fst d).
Proof.
  induction d as [| [k' v'] d IH]; simpl; [tauto |].
  destruct (String.eqb_spec k k') as [-> | Hne].
  - split; [discriminate | intros H; exfalso; apply H; now left].
  - rewrite IH. split; [intros H [E | E]; [congruence | tauto] | tauto].
Qed.

Lemma in_keys k v d : In (k, v) d -> In k (map fst d).
Proof. intros H. apply (in_map fst) in H. exact H. Qed.

Lemma in_get k v d : wf_dict d -> In (k, v) d -> Py.get k d = Some v.
Proof.
  unfold wf_dict. induction d as [| [k' v'] d IH]; simpl; [tauto |].
  intros Hnd [[= -> ->] | Hin].
  - now rewrite String.eqb_refl.
  - inversion Hnd as [| ? ? Hnotin Hnd']; subst.
    destruct (String.eqb_spec k k') as [-> | _]; [| auto].
    exfalso. apply Hnotin. eauto using in_keys.
Qed.

Lemma set_in k v k' v' d :
  In (k', v') (Py.set k v d) -> (k', v') = (k, v) \/ In (k', v') d.
Proof.
  induction d as [| [k0 v0] d IH]; simpl.
  - intros [E | []]. now left.
  - destruct (String.eqb k k0); simpl; intros [E | H]; auto.
    destruct (IH H); auto.
Qed.

Lemma set_keys k v d k' :
  In k' (map fst (Py.set k v d)) -> k' = k \/ In k' (map fst d).
Proof.
  induction d as [| [k0 v0] d IH]; simpl.
  - intros [E | []]. now left.
  - destruct (String.eqb_spec k k0) as [-> | _]; simpl; intros [E | H]; auto.
    destruct (IH H); auto.
Qed.

Lemma set_wf k v d : wf_dict d -> wf_dict (Py.set k v d).
Proof.
  unfold wf_dict. induction d as [| [k0 v0] d IH]; simpl; intros Hnd.
  - constructor; [intros [] | constructor].
  - inversion Hnd as [| ? ? Hnotin Hnd']; subst.
    destruct (String.eqb_spec k k0) as [-> | Hne]; simpl.
    + now constructor.
    + constructor; [| auto].
      intros H. apply set_keys in H as [E | H]; [congruence | tauto].
Qed.

Lemma get_set_same k v d : Py.get k (Py.set k v d) = Some v.
Proof.
  induction d as [| [k0 v0] d IH]; simpl.
  - now rewrite String.eqb_refl.
  - destruct (String.eqb k k0) eqn:E; simpl.
    + now rewrite String.eqb_refl.
    + now rewrite E.
Qed.

Lemma get_set_other k v d k' :
  k' <> k -> Py.get k' (Py.set k v d) = Py.get k' d.
Proof.
  intros Hne. induction d as [| [k0 v0] d IH]; simpl.
  - destruct (String.eqb_spec k' k); [congruence | reflexivity].
  - destruct (String.eqb_spec k k0) as [-> | _]; simpl.
    + destruct (String.eqb_spec k' k0); [congruence | reflexivity].
    + now rewrite IH.
Qed.

Lemma pop_in k k' v' d : In (k', v') (Py.pop k d) -> In (k', v') d.
Proof.
  induction d as [| [k0 v0] d IH]; simpl; [tauto |].
  destruct (String.eqb k k0); simpl; [tauto |].
  intros [E | H]; auto.
Qed.

Lemma pop_keys k k' d : In k' (map fst (Py.pop k d)) -> In k' (map fst d).
Proof.
  induction d as [| [k0 v0] d IH]; simpl; [tauto |].
  destruct (String.eqb k k0); simpl; [tauto |].
  intros [E | H]; auto.
Qed.

Lemma pop_wf k d : wf_dict d -> wf_dict (Py.pop k d).
Proof.
  unfold wf_dict. induction d as [| [k0 v0] d IH]; simpl; intros Hnd.
  - constructor.
  - inversion Hnd as [| ? ? Hnotin Hnd']; subst.
    destruct (String.eqb k k0); simpl; [assumption |].
    constructor; [| auto]. intros H. apply Hnotin. eauto using pop_keys.
Qed.

Lemma get_pop_same k d : wf_dict d -> Py.get k (Py.pop k d) = None.
Proof.
  unfold wf_dict. induction d as [| [k0 v0] d IH]; simpl; intros Hnd.
  - reflexivity.
  - inversion Hnd as [| ? ? Hnotin Hnd']; subst.
    destruct (String.eqb_spec k k0) as [-> | Hne]; simpl.
    + now apply get_none_not_in.
    + destruct (String.eqb_spec k k0); [congruence | auto].
Qed.

Lemma get_pop_other k k' d : k' <> k -> Py.get k' (Py.pop k d) = Py.get k' d.
Proof.
  intros Hne. induction d as [| [k0 v0] d IH]; simpl; [reflexivity |].
  destruct (String.eqb_spec k k0) as [-> | _]; simpl.
  - destruct (String.eqb_spec k' k0); [congruence | reflexivity].
  - now rewrite IH.
Qed.

Lemma pop_all_in keys k' v' d : In (k', v') (pop_all keys d) -> In (k', v') d.
Proof.
  revert d; induction keys as [| k keys IH]; intros d; simpl; [tauto |].
  intros H. eauto using pop_in.
Qed.

Lemma pop_all_wf keys d : wf_dict d -> wf_dict (pop_all keys d).
Proof.
  revert d; induction keys as [| k keys IH]; intros d; simpl; auto using pop_wf.
Qed.

Lemma get_pop_all_gone keys k d :
  wf_dict d -> In k keys \/ Py.get k d = None ->
  Py.get k (pop_all keys d) = None.
Proof.
  revert d; induction keys as [| k0 keys IH]; intros d Hwf H; simpl.
  - destruct H as [[] | H]; exact H.
  - apply IH; [now apply pop_wf |].
    destruct (string_dec k k0) as [-> | Hne].
    + right. now apply get_pop_same.
    + destruct H as [[E | H] | H]; [congruence | now left |].
      right. now rewrite get_pop_other.
Qed.

Lemma get_pop_all_kept keys k d :
  ~ In k keys -> Py.get k (pop_all keys d) = Py.get k d.
Proof.
  revert d; induction keys as [| k0 keys IH]; intros d H; simpl.
  - reflexivity.
  - rewrite IH by (intros Hin; apply H; now right).
    apply get_pop_other. intros ->. apply H. now left.
Qed.
End DictFacts.

(** ** The flush loop *)

Section FlushLoop.
Variables (due : pending -> bool) (record : pending -> Z -> json_obj).

Lemma flush_loop_due (items : Py.dict pending) (c : Z) (id : string)
    (e : pending) :
  In (id, e) items -> due e = true ->
  exists k, In (id, record e k) (flush_loop due record items c).
Proof.
  revert c; induction items as [| [id0 e0] items IH]; intros c Hin Hdue.
  - destruct Hin.
  - simpl. destruct Hin as [[= -> ->] | Hin].
    + rewrite Hdue. exists c. now left.
    + destruct (due e0).
      * destruct (IH (c + 1) Hin Hdue) as [k Hk]. exists k. now right.
      * now apply IH.
Qed.

Lemma flush_loop_from (items : Py.dict pending) (c : Z) (id : string)
    (r : json_obj) :
  In (id, r) (flush_loop due record items c) ->
  exists e k, In (id, e) items /\ due e = true /\ r = record e k.
Proof.
  revert c; induction items as [| [id0 e0] items IH]; intros c Hin.
  - destruct Hin.
  - simpl in Hin. destruct (due e0) eqn:Hdue.
    + destruct Hin as [[= -> <-] | Hin].
      * exists e0, c. repeat split; trivial. now left.
      * destruct (IH _ Hin) as [e [k [H1 [H2 H3]]]].
        exists e, k. repeat split; trivial. now right.
    + destruct (IH _ Hin) as [e [k [H1 [H2 H3]]]].
      exists e, k. repeat split; trivial. now right.
Qed.

(** An entry of a dictionary is noted for removal exactly when it is
    due. *)
Lemma flush_loop_keys (items : Py.dict pending) (c : Z) (id : string)
    (e : pending) :
  wf_dict items -> In (id, e) items ->
  In id (map fst (flush_loop due record items c)) <-> due e = true.
Proof.
  intros Hwf Hin. split.
  - intros Hk. apply in_map_iff in Hk as [[id' r] [E Hr]]. simpl in E. subst id'.
    apply flush_loop_from in Hr as [e' [k [Hin' [Hdue _]]]].
    assert (E : Some e' = Some e).
    { rewrite <- (in_get _ _ _ Hwf Hin'). now apply in_get. }
    now injection E as <-.
  - intros Hdue. destruct (flush_loop_due items c id e Hin Hdue) as [k Hk].
    apply (in_map fst) in Hk. exact Hk.
Qed.
End FlushLoop.

Lemma Qgtb_lt (a b : Q) : Qgtb a b = true <-> (b < a)%Q.
Proof.
  unfold Qgtb. rewrite negb_true_iff. split.
  - intros H. apply Qnot_le_lt. intros Hle.
    apply Qle_bool_iff in Hle. congruence.
  - intros H. destruct (Qle_bool a b) eqn:E; [| reflexivity].
    apply Qle_bool_iff in E. exfalso. eapply Qlt_not_le; eauto.
Qed.

Lemma Qgtb_le (a b : Q) : Qgtb a b = false <-> (a <= b)%Q.
Proof.
  unfold Qgtb. rewrite negb_false_iff. apply Qle_bool_iff.
Qed.

(** ** The aggregator: what one pass of the flush loop does *)

(** A pass of r.py flushes with the snapshot it leaves behind. *)
Lemma r_pass_shape (w : R.tick_world) (s : R.recorder) :
  let s' := R._process_buffer w s in
  let flushed :=
    R.flush (R.current_view_hierarchy s') (R.current_time w)
      (R.pending_events s) (R.event_counter s) in
  R.pending_events s' = pop_all (map fst flushed) (R.pending_events s)
  /\ R.json_output s' = (R.json_output s ++ map snd flushed)%list.
Proof.
  unfold R._process_buffer.
  destruct (R.update_hierarchy_needed s);
    match goal with
    | |- context [Qgtb ?a ?b] => destruct (Qgtb a b)
    end; simpl; split; reflexivity.
Qed.

Lemma a_pass_shape (t : Q) (s : Adbpull.recorder) :
  let s' := Adbpull._process_buffer t s in
  let flushed :=
    Adbpull.flush (Adbpull.current_view_hierarchy s') t
      (Adbpull.pending_events s) (Adbpull.event_counter s) in
  Adbpull.pending_events s' = pop_all (map fst flushed) (Adbpull.pending_events s)
  /\ Adbpull.json_output s' = (Adbpull.json_output s ++ map snd flushed)%list.
Proof. split; reflexivity. Qed.

(** What a pass does with one entry, for any test and record function:
    an entry that is due is written and removed, another one stays. *)
Section OneEntry.
Variables (due : pending -> bool) (record : pending -> Z -> json_obj).
Variables (items : Py.dict pending) (c : Z) (out : list json_obj).
Variables (id : string) (e : pending).
Hypothesis Hwf : wf_dict items.
Hypothesis Hin : In (id, e) items.

Let flushed := flush_loop due record items c.

Lemma entry_flushed :
  due e = true ->
  Py.get id (pop_all (map fst flushed) items) = None
  /\ exists k, In (record e k) (out ++ map snd flushed).
Proof.
  intros Hdue. split.
  - apply get_pop_all_gone; [exact Hwf |]. left.
    now apply flush_loop_keys with (e := e).
  - destruct (flush_loop_due due record items c id e Hin Hdue) as [k Hk].
    exists k. apply in_or_app. right.
    apply (in_map snd) in Hk. exact Hk.
Qed.

Lemma entry_kept :
  due e = false -> Py.get id (pop_all (map fst flushed) items) = Some e.
Proof.
  intros Hdue. rewrite get_pop_all_kept.
  - now apply in_get.
  - intros Hk. apply flush_loop_keys with (e := e) in Hk; trivial. congruence.
Qed.
End OneEntry.

(** C1, as stated, fails in r.py: an entry that got x and y at time 0 is
    complete, yet the pass made 50 ms later writes nothing and leaves it
    in the buffer. *)
Lemma C1_counterexample :
  let s := R.run [ R.Line at_0_0 "EV_ABS ABS_MT_POSITION_X 0x64";
                   R.Line at_0_0 "EV_ABS ABS_MT_POSITION_Y 0x32" ] R.init in
  let s' := R._process_buffer (R.mk_tick_world (5 # 100) quiet quiet) s in
  (exists id e, R.pending_events s = [(id, e)]
     /\ p_x e = Some 100 /\ p_y e = Some 50 /\ is_complete e = true)
  /\ R.json_output s' = []
  /\ R.pending_events s' = R.pending_events s.
Proof.
  split; [| split]; try reflexivity.
  eexists; eexists. repeat split; reflexivity.
Qed.

(** C1, amended: in adbpull.py an entry with both coordinates set is
    flushed by the next pass whatever its age: it leaves the buffer and
    its record is written with the resource_id that the snapshot of that
    instant gives for its coordinates.  In r.py completeness does not
    suffice: the pass flushes an entry when its age exceeds the 100 ms
    timeout, whether complete or not, resolving resource_id at that pass
    when the entry is complete, and leaves it in the buffer otherwise. *)
Theorem C1_flush_of_complete_events (id : string) (e : pending) :
  (forall t s,
     wf_dict (Adbpull.pending_events s) ->
     In (id, e) (Adbpull.pending_events s) ->
     is_complete e = true ->
     let s' := Adbpull._process_buffer t s in
     Py.get id (Adbpull.pending_events s') = None
     /\ exists k,
          In (to_json e
                (Adbpull._find_resource_at_coordinates
                   (Adbpull.current_view_hierarchy s') (p_x e) (p_y e)) k)
             (Adbpull.json_output s'))
  /\ (forall w s,
        wf_dict (R.pending_events s) ->
        In (id, e) (R.pending_events s) ->
        let s' := R._process_buffer w s in
        ((buffer_timeout < R.current_time w - p_created_at e)%Q ->
         Py.get id (R.pending_events s') = None
         /\ exists k,
              In (to_json e
                    (if is_complete e
                     then R._find_resource_at_coordinates
                            (R.current_view_hierarchy s') (p_x e) (p_y e)
                     else p_resource_id e) k)
                 (R.json_output s'))
        /\ ((R.current_time w - p_created_at e <= buffer_timeout)%Q ->
            Py.get id (R.pending_events s') = Some e)).
Proof.
  split.
  - intros t s Hwf Hin Hc s'.
    destruct (a_pass_shape t s) as [Hp Ho]. fold s' in Hp, Ho.
    rewrite Hp, Ho. unfold Adbpull.flush.
    assert (Hdue : Adbpull.due t e = true)
      by (unfold Adbpull.due; now rewrite Hc).
    destruct (entry_flushed (Adbpull.due t)
                (Adbpull.finish (Adbpull.current_view_hierarchy s'))
                (Adbpull.pending_events s) (Adbpull.event_counter s)
                (Adbpull.json_output s) id e Hwf Hin Hdue) as [Hgone [k Hk]].
    split; [exact Hgone |]. exists k.
    unfold Adbpull.finish in Hk. now rewrite Hc in Hk.
  - intros w s Hwf Hin s'.
    destruct (r_pass_shape w s) as [Hp Ho]. fold s' in Hp, Ho.
    rewrite Hp, Ho. unfold R.flush. split.
    + intros Hage.
      assert (Hdue : R.due (R.current_time w) e = true)
        by (unfold R.due; now apply Qgtb_lt).
      exact (entry_flushed (R.due (R.current_time w))
               (R.finish (R.current_view_hierarchy s'))
               (R.pending_events s) (R.event_counter s)
               (R.json_output s) id e Hwf Hin Hdue).
    + intros Hage.
      assert (Hdue : R.due (R.current_time w) e = false)
        by (unfold R.due; now apply Qgtb_le).
      exact (entry_kept (R.due (R.current_time w))
               (R.finish (R.current_view_hierarchy s'))
               (R.pending_events s) (R.event_counter s) id e Hwf Hin Hdue).
Qed.

Lemma C1_flush_of_complete_events_witness :
  let id := "12:00:00.000_MOTION_/dev/input/event1" in
  let e := mk_pending "12:00:00.000" "/dev/input/event1" "com.example" ".Main"
             "MOTION" (Some 50) (Some 20) 0%Q "unknown" "" in
  let s' := Adbpull._process_buffer 0%Q a_complete_state in
  Py.get id (Adbpull.pending_events s') = None
  /\ exists k,
       In (to_json e
             (Adbpull._find_resource_at_coordinates
                (Adbpull.current_view_hierarchy s') (p_x e) (p_y e)) k)
          (Adbpull.json_output s').
Proof.
  intros id e.
  apply (proj1 (C1_flush_of_complete_events id e) 0%Q a_complete_state).
  - unfold wf_dict. simpl. constructor; [intros [] | constructor].
  - simpl. left. reflexivity.
  - reflexivity.
Defined.

(** ** The aggregator: what one line does *)

Ltac break_branches :=
  repeat match goal with
         | |- context [if ?b then _ else _] => destruct b
         | |- context [match ?x with _ => _ end] => destruct x
         end.

(** A fragment of r.py that bears a kind bears one of the five kinds and
    no coordinate. *)
Lemma r_kind_fragment (line k : string) :
  ei_event_type (R._parse_event line) = Some k ->
  In k event_kinds
  /\ ei_x (R._parse_event line) = None /\ ei_y (R._parse_event line) = None.
Proof.
  unfold R._parse_event. break_branches; simpl;
    try discriminate; intros [= <-]; simpl; tauto.
Qed.

Lemma a_kind_fragment (line k : string) (info : event_info) :
  Adbpull._parse_event line = Some info -> ei_event_type info = Some k ->
  In k event_kinds /\ ei_x info = None /\ ei_y info = None.
Proof.
  unfold Adbpull._parse_event, Adbpull.touch_kind, Adbpull.key_kind.
  break_branches; simpl; try discriminate; intros [= <-]; simpl;
    try discriminate; intros [= <-]; simpl; tauto.
Qed.

(** C2, as stated, fails in both recorders.  In r.py, with a TOUCH_DOWN
    entry pending, a line that only brings x leaves that entry without
    coordinates and creates a second entry, of kind UNKNOWN, that holds
    the x.  In adbpull.py the same line leaves the pending entry without
    coordinates as well; the x goes to the recorder only. *)
Lemma C2_counterexample :
  (let s1 := R._collect_event_data at_0_0 "EV_KEY BTN_TOUCH DOWN" R.init in
   let s2 := R._collect_event_data at_0_0 "EV_ABS ABS_MT_POSITION_X 0x64" s1 in
   exists down unknown,
     R.pending_events s1 = [("12:00:00.000_TOUCH_DOWN_unknown", down)]
     /\ R.pending_events s2
        = [ ("12:00:00.000_TOUCH_DOWN_unknown", down);
            ("12:00:00.000_UNKNOWN_unknown", unknown) ]
     /\ p_x down = None
     /\ p_event_type unknown = "UNKNOWN" /\ p_x unknown = Some 100)
  /\ (exists s1 s2 down,
        Adbpull._collect_event_data at_1_0 "EV_KEY BTN_TOUCH DOWN" Adbpull.init
        = Some s1
        /\ Adbpull._collect_event_data at_1_0 "EV_ABS ABS_MT_POSITION_X 0x64" s1
           = Some s2
        /\ Adbpull.pending_events s2
           = [("12:00:00.000_TOUCH_DOWN_unknown", down)]
        /\ p_x down = None
        /\ Adbpull.coords s2 = (Some 100, None)).
Proof.
  split.
  - eexists; eexists. repeat split; reflexivity.
  - eexists; eexists; eexists. repeat split; reflexivity.
Qed.

(** C2, amended: a fragment without an event kind, and so one that only
    carries coordinates, does not update the most recently active entry.
    In adbpull.py it leaves the buffer as it is and stores its x and y in
    the coordinates that the recorder carries.  In r.py it is applied to
    the entry whose key is made of the timestamp, the word UNKNOWN and
    the device: that entry is created, with kind UNKNOWN, when the buffer
    has none, and no entry under another key changes. *)
Theorem C2_coordinate_only_fragment (line : string) :
  Py.startswith "/dev/input/" line = false ->
  (forall info w s,
     Adbpull._parse_event line = Some info -> ei_event_type info = None ->
     Adbpull._collect_event_data w line s
     = Some (Adbpull.mk_recorder
               (match ei_x info with
                | Some v => Some v
                | None => fst (Adbpull.coords s)
                end,
                match ei_y info with
                | Some v => Some v
                | None => snd (Adbpull.coords s)
                end)
               (Adbpull.current_pkg s) (Adbpull.current_activity s)
               (Adbpull.current_device s) (Adbpull.pending_events s)
               (Adbpull.current_view_hierarchy s)
               (Adbpull.last_hierarchy_update s) (Adbpull.event_counter s)
               (Adbpull.json_output s)))
  /\ (forall w s,
        ei_event_type (R._parse_event line) = None ->
        let info := R._parse_event line in
        let id := R.timestamp w ++ "_" ++ "UNKNOWN" ++ "_" ++ R.current_device s in
        let s' := R._collect_event_data w line s in
        Py.get id (R.pending_events s')
        = Some (R.with_coordinates info
                  (match Py.get id (R.pending_events s) with
                   | Some e => e
                   | None =>
                       mk_pending (R.timestamp w) (R.current_device s)
                         (R.current_pkg s) (R.current_activity s) "UNKNOWN"
                         None None (R.now w) "unknown" ""
                   end))
        /\ forall k, k <> id ->
             Py.get k (R.pending_events s') = Py.get k (R.pending_events s)).
Proof.
  intros Hdev. split.
  - intros info w s Hparse Hkind.
    unfold Adbpull._collect_event_data. now rewrite Hdev, Hparse, Hkind.
  - intros w s Hkind info id s'. subst s'.
    unfold R._collect_event_data. rewrite Hdev, Hkind. simpl. split.
    + apply get_set_same.
    + intros k Hk. now apply get_set_other.
Qed.

Lemma C2_coordinate_only_fragment_witness :
  let line := "EV_ABS ABS_MT_POSITION_X 0x64" in
  let id := R.timestamp at_0_0 ++ "_" ++ "UNKNOWN" ++ "_" ++ R.current_device R.init in
  Py.get id (R.pending_events (R._collect_event_data at_0_0 line R.init))
  = Some (R.with_coordinates (R._parse_event line)
            (mk_pending (R.timestamp at_0_0) (R.current_device R.init)
               (R.current_pkg R.init) (R.current_activity R.init) "UNKNOWN"
               None None (R.now at_0_0) "unknown" "")).
Proof.
  exact (proj1 (proj2 (C2_coordinate_only_fragment
                         "EV_ABS ABS_MT_POSITION_X 0x64" eq_refl)
                 at_0_0 R.init eq_refl)).
Defined.

(** ** C3: entries that got a kind and no coordinates *)

(** C3, as stated, fails in adbpull.py: after a motion at (100, 50) has
    been flushed, a touch-down line that comes alone two seconds later
    creates an entry that already holds (100, 50); the pass made at that
    very instant writes it, with a resolved resource_id. *)
Lemma C3_counterexample :
  exists s,
    Adbpull.run
      [ Adbpull.Line (a_line_at "12:00:00.000" 1) "EV_ABS ABS_MT_POSITION_X 0x64";
        Adbpull.Line (a_line_at "12:00:00.000" 1) "EV_ABS ABS_MT_POSITION_Y 0x32";
        Adbpull.Line (a_line_at "12:00:00.000" 1) "EV_SYN SYN_REPORT";
        Adbpull.Tick 1;
        Adbpull.Line (a_line_at "12:00:02.000" 3) "EV_KEY BTN_TOUCH DOWN";
        Adbpull.Tick 3 ] Adbpull.init = Some s
    /\ Adbpull.pending_events s = []
    /\ Adbpull.json_output s
       = [ mk_json "12:00:00.000" "unknown" "unknown" "unknown" "MOTION"
             (Some 100) (Some 50) "Button ('OK')" "" 0;
           mk_json "12:00:02.000" "unknown" "unknown" "unknown" "TOUCH_DOWN"
             (Some 100) (Some 50) "Button ('OK')" "" 1 ].
Proof. eexists. repeat split; reflexivity. Qed.

(** C3, amended: in r.py a fragment with a kind that creates an entry
    creates it without coordinates and with resource_id unknown, and a
    pass leaves such an entry in the buffer while its age is at most
    100 ms and, once its age exceeds 100 ms, removes it and writes it
    with x and y null and resource_id unknown.  In adbpull.py the entry
    is created with the coordinates the recorder carries from earlier
    lines; when these are not both set, a pass treats it in the same
    way, and the record holds them as they are. *)
Theorem C3_kind_only_event :
  (forall w s line k,
     Py.startswith "/dev/input/" line = false ->
     ei_event_type (R._parse_event line) = Some k ->
     let id := R.timestamp w ++ "_" ++ k ++ "_" ++ R.current_device s in
     Py.get id (R.pending_events s) = None ->
     exists e,
       Py.get id (R.pending_events (R._collect_event_data w line s)) = Some e
       /\ p_event_type e = k /\ p_x e = None /\ p_y e = None
       /\ p_resource_id e = "unknown" /\ p_created_at e = R.now w)
  /\ (forall w s id e,
        wf_dict (R.pending_events s) -> In (id, e) (R.pending_events s) ->
        p_x e = None -> p_y e = None -> p_resource_id e = "unknown" ->
        let s' := R._process_buffer w s in
        ((R.current_time w - p_created_at e <= buffer_timeout)%Q ->
         Py.get id (R.pending_events s') = Some e)
        /\ ((buffer_timeout < R.current_time w - p_created_at e)%Q ->
            Py.get id (R.pending_events s') = None
            /\ exists r, In r (R.json_output s')
                 /\ j_x r = None /\ j_y r = None /\ j_resource_id r = "unknown"
                 /\ j_event_type r = p_event_type e
                 /\ j_timestamp r = p_timestamp e))
  /\ (forall w s line info k,
        Py.startswith "/dev/input/" line = false ->
        Adbpull._parse_event line = Some info ->
        ei_event_type info = Some k ->
        let id := Adbpull.timestamp w ++ "_" ++ k ++ "_" ++ Adbpull.current_device s in
        Py.get id (Adbpull.pending_events s) = None ->
        exists s' e,
          Adbpull._collect_event_data w line s = Some s'
          /\ Py.get id (Adbpull.pending_events s') = Some e
          /\ p_event_type e = k
          /\ p_x e = fst (Adbpull.coords s) /\ p_y e = snd (Adbpull.coords s)
          /\ p_resource_id e = "unknown"
          /\ p_created_at e = Adbpull.now_stored w)
  /\ (forall t s id e,
        wf_dict (Adbpull.pending_events s) ->
        In (id, e) (Adbpull.pending_events s) ->
        is_complete e = false -> p_resource_id e = "unknown" ->
        let s' := Adbpull._process_buffer t s in
        ((t - p_created_at e <= buffer_timeout)%Q ->
         Py.get id (Adbpull.pending_events s') = Some e)
        /\ ((buffer_timeout < t - p_created_at e)%Q ->
            Py.get id (Adbpull.pending_events s') = None
            /\ exists r, In r (Adbpull.json_output s')
                 /\ j_x r = p_x e /\ j_y r = p_y e
                 /\ j_resource_id r = "unknown"
                 /\ j_event_type r = p_event_type e
                 /\ j_timestamp r = p_timestamp e)).
Proof.
  split; [| split; [| split]].
  - intros w s line k Hdev Hkind id Hnew.
    destruct (r_kind_fragment line k Hkind) as [_ [Hx Hy]].
    unfold R._collect_event_data. rewrite Hdev, Hkind. fold id. rewrite Hnew.
    destruct (in_strings k ["TOUCH_DOWN"; "KEY_DOWN"]).
    + destruct (R._get_current_app_info w s) as [pkg activity].
      cbn [R.pending_events]. rewrite get_set_same.
      unfold R.with_coordinates, R.with_app. rewrite Hkind, Hx, Hy.
      eexists. split; [reflexivity |]. repeat split; reflexivity.
    + cbn [R.pending_events]. rewrite get_set_same.
      unfold R.with_coordinates. rewrite Hkind, Hx, Hy.
      eexists. split; [reflexivity |]. repeat split; reflexivity.
  - intros w s id e Hwf Hin Hx Hy Hrid s'.
    destruct (r_pass_shape w s) as [Hp Ho]. fold s' in Hp, Ho.
    rewrite Hp, Ho. unfold R.flush. split.
    + intros Hage. apply entry_kept; trivial.
      unfold R.due. now apply Qgtb_le.
    + intros Hage.
      assert (Hdue : R.due (R.current_time w) e = true)
        by (unfold R.due; now apply Qgtb_lt).
      destruct (entry_flushed (R.due (R.current_time w))
                  (R.finish (R.current_view_hierarchy s'))
                  (R.pending_events s) (R.event_counter s)
                  (R.json_output s) id e Hwf Hin Hdue) as [Hgone [k Hk]].
      split; [exact Hgone |]. eexists. split; [exact Hk |].
      unfold R.finish, is_complete. rewrite Hx. simpl. now rewrite Hx, Hy, Hrid.
  - intros w s line info k Hdev Hparse Hkind id Hnew.
    destruct (a_kind_fragment line k info Hparse Hkind) as [_ [Hx Hy]].
    unfold Adbpull._collect_event_data.
    rewrite Hdev, Hparse, Hkind, Hx, Hy. fold id. rewrite Hnew.
    destruct (in_strings k ["MOTION"; "TOUCH_UP"]).
    + destruct (Adbpull._get_current_app_info w s) as [pkg activity].
      match goal with
      | |- context [Qgtb ?a ?b] => destruct (Qgtb a b)
      end; eexists; eexists; (split; [reflexivity |]);
        cbn [Adbpull.pending_events];
        rewrite get_set_same; (split; [reflexivity |]);
        repeat split; reflexivity.
    + eexists; eexists. split; [reflexivity |]. cbn [Adbpull.pending_events].
      rewrite get_set_same. split; [reflexivity |]. repeat split; reflexivity.
  - intros t s id e Hwf Hin Hc Hrid s'.
    destruct (a_pass_shape t s) as [Hp Ho]. fold s' in Hp, Ho.
    rewrite Hp, Ho. unfold Adbpull.flush. split.
    + intros Hage. apply entry_kept; trivial.
      unfold Adbpull.due. rewrite Hc. simpl. now apply Qgtb_le.
    + intros Hage.
      assert (Hdue : Adbpull.due t e = true).
      { unfold Adbpull.due. rewrite Hc. simpl. now apply Qgtb_lt. }
      destruct (entry_flushed (Adbpull.due t)
                  (Adbpull.finish (Adbpull.current_view_hierarchy s'))
                  (Adbpull.pending_events s) (Adbpull.event_counter s)
                  (Adbpull.json_output s) id e Hwf Hin Hdue) as [Hgone [k Hk]].
      split; [exact Hgone |]. eexists. split; [exact Hk |].
      unfold Adbpull.finish. rewrite Hc. simpl. now rewrite Hrid.
Qed.

Lemma C3_kind_only_event_witness :
  let s' := R._process_buffer (R.mk_tick_world 1 quiet quiet) r_touch_state in
  Py.get "12:00:00.000_TOUCH_DOWN_/dev/input/event1" (R.pending_events s') = None
  /\ exists r, In r (R.json_output s')
       /\ j_x r = None /\ j_y r = None /\ j_resource_id r = "unknown"
       /\ j_event_type r = p_event_type r_touch_entry
       /\ j_timestamp r = p_timestamp r_touch_entry.
Proof.
  assert (Hwf : wf_dict (R.pending_events r_touch_state)).
  { unfold wf_dict. simpl. constructor; [intros [] | constructor]. }
  apply (proj2 (proj1 (proj2 C3_kind_only_event)
                  (R.mk_tick_world 1 quiet quiet) r_touch_state
                  "12:00:00.000_TOUCH_DOWN_/dev/input/event1" r_touch_entry
                  Hwf (or_introl eq_refl) eq_refl eq_refl eq_refl)).
  reflexivity.
Defined.

(** ** C4: the kinds that reach the output *)

Section Kinds.
Variable K : list string.

Lemma set_entries_in (id : string) (e : pending) (d : Py.dict pending) :
  In (p_event_type e) K -> entries_in K d -> entries_in K (Py.set id e d).
Proof.
  intros He Hd id' e' Hin. apply set_in in Hin as [[= -> ->] | Hin]; eauto.
Qed.

Lemma pop_all_entries_in (keys : list string) (d : Py.dict pending) :
  entries_in K d -> entries_in K (pop_all keys d).
Proof. intros Hd id e Hin. eauto using pop_all_in. Qed.

Lemma flushed_records_in (due : pending -> bool)
    (record : pending -> Z -> json_obj) (d : Py.dict pending) (c : Z)
    (out : list json_obj) :
  (forall e k, j_event_type (record e k) = p_event_type e) ->
  entries_in K d -> records_in K out ->
  records_in K (out ++ map snd (flush_loop due record d c)).
Proof.
  intros Hrec Hd Hout r Hin. apply in_app_or in Hin as [Hin | Hin]; [auto |].
  apply in_map_iff in Hin as [[id r'] [E Hin]]. simpl in E. subst r'.
  apply flush_loop_from in Hin as [e [k [Hin [_ ->]]]].
  rewrite Hrec. eauto.
Qed.

Lemma r_pass_kinds (w : R.tick_world) (s : R.recorder) :
  r_kinds_ok K s -> r_kinds_ok K (R._process_buffer w s).
Proof.
  intros [Hd Hout]. destruct (r_pass_shape w s) as [Hp Ho].
  unfold r_kinds_ok. rewrite Hp, Ho. split.
  - now apply pop_all_entries_in.
  - now apply flushed_records_in.
Qed.

Lemma a_pass_kinds (t : Q) (s : Adbpull.recorder) :
  a_kinds_ok K s -> a_kinds_ok K (Adbpull._process_buffer t s).
Proof.
  intros [Hd Hout]. destruct (a_pass_shape t s) as [Hp Ho].
  unfold a_kinds_ok. rewrite Hp, Ho. split.
  - now apply pop_all_entries_in.
  - now apply flushed_records_in.
Qed.

Hypothesis five : forall k, In k event_kinds -> In k K.

Lemma a_line_kinds (w : Adbpull.line_world) (line : string)
    (s s' : Adbpull.recorder) :
  a_kinds_ok K s -> Adbpull._collect_event_data w line s = Some s' ->
  a_kinds_ok K s'.
Proof.
  intros [Hd Hout]. unfold Adbpull._collect_event_data.
  destruct (Py.startswith "/dev/input/" line); [intros [= <-]; now split |].
  destruct (Adbpull._parse_event line) as [info |] eqn:Hparse; [| discriminate].
  destruct (ei_event_type info) as [k |] eqn:Hkind; [| intros [= <-]; now split].
  destruct (a_kind_fragment line k info Hparse Hkind) as [Hk _].
  set (id := Adbpull.timestamp w ++ "_" ++ k ++ "_" ++ Adbpull.current_device s).
  assert (Hset : forall e,
             In (p_event_type e) K ->
             entries_in K (Py.set id e (Adbpull.pending_events s)))
    by (intros e He; now apply set_entries_in).
  destruct (Py.get id (Adbpull.pending_events s)) as [e0 |] eqn:Hget.
  - apply get_in in Hget.
    destruct (in_strings k ["MOTION"; "TOUCH_UP"]);
      [destruct (Adbpull._get_current_app_info w s);
       match goal with
       | |- context [Qgtb ?a ?b] => destruct (Qgtb a b)
       end |];
      intros [= <-]; split; trivial; apply Hset; simpl; eauto.
  - destruct (in_strings k ["MOTION"; "TOUCH_UP"]);
      [destruct (Adbpull._get_current_app_info w s);
       match goal with
       | |- context [Qgtb ?a ?b] => destruct (Qgtb a b)
       end |];
      intros [= <-]; split; trivial; apply Hset; simpl; auto.
Qed.

Lemma a_run_kinds (actions : list Adbpull.action) (s s' : Adbpull.recorder) :
  a_kinds_ok K s -> Adbpull.run actions s = Some s' -> a_kinds_ok K s'.
Proof.
  revert s; induction actions as [| a actions IH]; intros s Hs; simpl.
  - now intros [= <-].
  - destruct (Adbpull.step a s) as [s1 |] eqn:Hstep; [| discriminate].
    apply IH. destruct a as [w line | t]; simpl in Hstep.
    + eauto using a_line_kinds.
    + injection Hstep as <-. now apply a_pass_kinds.
Qed.

Hypothesis unknown : In "UNKNOWN" K.

Lemma r_line_kinds (w : R.line_world) (line : string) (s : R.recorder) :
  r_kinds_ok K s -> r_kinds_ok K (R._collect_event_data w line s).
Proof.
  intros [Hd Hout]. unfold R._collect_event_data.
  destruct (Py.startswith "/dev/input/" line); [now split |].
  set (kind := match ei_event_type (R._parse_event line) with
               | Some k => k
               | None => "UNKNOWN"
               end).
  set (id := R.timestamp w ++ "_" ++ kind ++ "_" ++ R.current_device s).
  assert (Hkind : In kind K).
  { subst kind. destruct (ei_event_type (R._parse_event line)) as [k |] eqn:E.
    - apply five. now destruct (r_kind_fragment line k E).
    - exact unknown. }
  assert (Hcreated :
            In (p_event_type
                  (match Py.get id (R.pending_events s) with
                   | Some e => e
                   | None =>
                       mk_pending (R.timestamp w) (R.current_device s)
                         (R.current_pkg s) (R.current_activity s) kind
                         None None (R.now w) "unknown" ""
                   end)) K).
  { destruct (Py.get id (R.pending_events s)) as [e0 |] eqn:Hget.
    - apply get_in in Hget. eauto.
    - exact Hkind. }
  assert (Hevent :
            In (p_event_type
                  (R.with_coordinates (R._parse_event line)
                     (match Py.get id (R.pending_events s) with
                      | Some e => e
                      | None =>
                          mk_pending (R.timestamp w) (R.current_device s)
                            (R.current_pkg s) (R.current_activity s) kind
                            None None (R.now w) "unknown" ""
                      end))) K).
  { unfold R.with_coordinates. cbn [p_event_type].
    subst kind. destruct (ei_event_type (R._parse_event line)); assumption. }
  match goal with
  | |- context [if ?b then _ else _] => destruct b
  end.
  - destruct (R._get_current_app_info w s) as [pkg activity].
    split; [| exact Hout]. cbn [R.pending_events].
    apply set_entries_in; [exact Hevent | exact Hd].
  - split; [| exact Hout]. cbn [R.pending_events].
    apply set_entries_in; [exact Hevent | exact Hd].
Qed.

Lemma r_run_kinds (actions : list R.action) (s : R.recorder) :
  r_kinds_ok K s -> r_kinds_ok K (R.run actions s).
Proof.
  unfold R.run. revert s; induction actions as [| a actions IH]; intros s Hs.
  - exact Hs.
  - simpl. apply IH. destruct a as [w line | w]; simpl.
    + now apply r_line_kinds.
    + now apply r_pass_kinds.
Qed.
End Kinds.

(** C4, as stated, fails in r.py: a line that only brings x makes an
    entry of kind UNKNOWN, and the pass made one second later writes it
    to the output with that kind. *)
Lemma C4_counterexample :
  exists r,
    In r (R.json_output
            (R.run [ R.Line at_0_0 "EV_ABS ABS_MT_POSITION_X 0x64";
                     R.Tick (R.mk_tick_world 1 quiet quiet) ] R.init))
    /\ j_event_type r = "UNKNOWN"
    /\ ~ In (j_event_type r) event_kinds.
Proof.
  eexists. split; [left; reflexivity |]. split; [reflexivity |].
  simpl. intuition discriminate.
Qed.

(** C4, amended: every record that adbpull.py writes, in any run from its
    initial state, has one of the five kinds TOUCH_DOWN, TOUCH_UP, MOTION,
    KEY_DOWN, KEY_UP as event_type; every record that r.py writes has one
    of these five or UNKNOWN, the kind r.py gives to the lines that bear
    no kind. *)
Theorem C4_event_types_written :
  (forall actions s r,
     Adbpull.run actions Adbpull.init = Some s ->
     In r (Adbpull.json_output s) -> In (j_event_type r) event_kinds)
  /\ (forall actions r,
        In r (R.json_output (R.run actions R.init)) ->
        In (j_event_type r) ("UNKNOWN" :: event_kinds)).
Proof.
  split.
  - intros actions s r Hrun Hin.
    assert (H0 : a_kinds_ok event_kinds Adbpull.init).
    { split; [intros ? ? [] | intros ? []]. }
    destruct (a_run_kinds event_kinds (fun k H => H) actions _ _ H0 Hrun)
      as [_ Hout].
    now apply Hout.
  - intros actions r Hin.
    assert (H0 : r_kinds_ok ("UNKNOWN" :: event_kinds) R.init).
    { split; [intros ? ? [] | intros ? []]. }
    destruct (r_run_kinds ("UNKNOWN" :: event_kinds)
                (fun k H => or_intror H) (or_introl eq_refl) actions _ H0)
      as [_ Hout].
    now apply Hout.
Qed.

Lemma C4_event_types_written_witness :
  exists s,
    Adbpull.run a_motion_run Adbpull.init = Some s
    /\ Adbpull.json_output s <> []
    /\ forall r, In r (Adbpull.json_output s) -> In (j_event_type r) event_kinds.
Proof.
  eexists. split; [reflexivity |]. split; [discriminate |].
  intros r. apply (proj1 C4_event_types_written a_motion_run). reflexivity.
Defined.

(** ** The buffer stays a dictionary *)

Lemma r_run_wf (actions : list R.action) (s : R.recorder) :
  wf_dict (R.pending_events s) -> wf_dict (R.pending_events (R.run actions s)).
Proof.
  unfold R.run. revert s; induction actions as [| a actions IH]; intros s Hs.
  - exact Hs.
  - simpl. apply IH. destruct a as [w line | w]; simpl.
    + unfold R._collect_event_data.
      destruct (Py.startswith "/dev/input/" line); [exact Hs |].
      match goal with
      | |- context [if ?b then _ else _] => destruct b
      end; [destruct (R._get_current_app_info w s) |];
        cbn [R.pending_events]; now apply set_wf.
    + destruct (r_pass_shape w s) as [Hp _]. rewrite Hp. now apply pop_all_wf.
Qed.

Lemma a_run_wf (actions : list Adbpull.action) (s s' : Adbpull.recorder) :
  wf_dict (Adbpull.pending_events s) -> Adbpull.run actions s = Some s' ->
  wf_dict (Adbpull.pending_events s').
Proof.
  revert s; induction actions as [| a actions IH]; intros s Hs; simpl.
  - now intros [= <-].
  - destruct (Adbpull.step a s) as [s1 |] eqn:Hstep; [| discriminate].
    apply IH. destruct a as [w line | t]; simpl in Hstep.
    + revert Hstep. unfold Adbpull._collect_event_data.
      destruct (Py.startswith "/dev/input/" line); [now intros [= <-] |].
      destruct (Adbpull._parse_event line) as [info |]; [| discriminate].
      destruct (ei_event_type info) as [k |]; [| now intros [= <-]].
      destruct (in_strings k ["MOTION"; "TOUCH_UP"]);
        [destruct (Adbpull._get_current_app_info w s);
         match goal with
         | |- context [Qgtb ?a ?b] => destruct (Qgtb a b)
         end |];
        intros [= <-]; cbn [Adbpull.pending_events]; now apply set_wf.
    + injection Hstep as <-. destruct (a_pass_shape t s) as [Hp _].
      rewrite Hp. now apply pop_all_wf.
Qed.


(* ================================================================= *)
(** * Further properties of the code *)

(** ** Sequence numbers and flush order *)

Lemma count_up_app (c : Z) (n m : nat) :
  count_up c (n + m) = (count_up c n ++ count_up (c + Z.of_nat n) m)%list.
Proof.
  revert c; induction n as [| n IH]; intros c.
  - simpl. now rewrite Z.add_0_r.
  - cbn [count_up Nat.add app]. rewrite IH. do 3 f_equal. lia.
Qed.

Lemma flush_loop_ids (due : pending -> bool) (record : pending -> Z -> json_obj)
    (items : Py.dict pending) (c : Z) :
  (forall e k, j_event_id (record e k) = k) ->
  map j_event_id (map snd (flush_loop due record items c))
  = count_up c (length (flush_loop due record items c)).
Proof.
  intros Hid. revert c; induction items as [| [id e] items IH]; intros c; simpl.
  - reflexivity.
  - destruct (due e); simpl; [| apply IH].
    now rewrite Hid, IH.
Qed.

Lemma numbered_flush (due : pending -> bool) (record : pending -> Z -> json_obj)
    (items : Py.dict pending) (c : Z) (out : list json_obj) :
  (forall e k, j_event_id (record e k) = k) ->
  numbered c out ->
  numbered (c + Z.of_nat (length (flush_loop due record items c)))
    (out ++ map snd (flush_loop due record items c)).
Proof.
  intros Hid [Hout Hc]. split.
  - rewrite map_app, length_app, count_up_app, length_map, <- Hout.
    f_equal. rewrite flush_loop_ids by exact Hid. now rewrite Hc.
  - rewrite length_app, length_map. lia.
Qed.

Lemma r_line_output (w : R.line_world) (line : string) (s : R.recorder) :
  R.json_output (R._collect_event_data w line s) = R.json_output s
  /\ R.event_counter (R._collect_event_data w line s) = R.event_counter s.
Proof.
  unfold R._collect_event_data.
  destruct (Py.startswith "/dev/input/" line); [now split |].
  match goal with
  | |- context [if ?b then _ else _] => destruct b
  end; [destruct (R._get_current_app_info w s) |]; now split.
Qed.

Lemma r_pass_counter (w : R.tick_world) (s : R.recorder) :
  R.event_counter (R._process_buffer w s)
  = R.event_counter s
    + Z.of_nat (length (R.flush (R.current_view_hierarchy (R._process_buffer w s))
                          (R.current_time w) (R.pending_events s)
                          (R.event_counter s))).
Proof.
  unfold R._process_buffer.
  destruct (R.update_hierarchy_needed s);
    match goal with
    | |- context [Qgtb ?a ?b] => destruct (Qgtb a b)
    end; reflexivity.
Qed.

Lemma a_line_output (w : Adbpull.line_world) (line : string)
    (s s' : Adbpull.recorder) :
  Adbpull._collect_event_data w line s = Some s' ->
  Adbpull.json_output s' = Adbpull.json_output s
  /\ Adbpull.event_counter s' = Adbpull.event_counter s.
Proof.
  unfold Adbpull._collect_event_data.
  destruct (Py.startswith "/dev/input/" line); [now intros [= <-] |].
  destruct (Adbpull._parse_event line) as [info |]; [| discriminate].
  destruct (ei_event_type info) as [k |]; [| now intros [= <-]].
  destruct (in_strings k ["MOTION"; "TOUCH_UP"]);
    [destruct (Adbpull._get_current_app_info w s);
     match goal with
     | |- context [Qgtb ?a ?b] => destruct (Qgtb a b)
     end |];
    now intros [= <-].
Qed.

(** X1: in any run of either recorder from its initial state, the
    records written carry the event ids 0, 1, 2, ... in the order they
    were written, and the counter of the recorder is their number. *)
Theorem X1_event_ids_count_from_zero :
  (forall actions,
     let s := R.run actions R.init in
     map j_event_id (R.json_output s) = count_up 0 (length (R.json_output s))
     /\ R.event_counter s = Z.of_nat (length (R.json_output s)))
  /\ (forall actions s,
        Adbpull.run actions Adbpull.init = Some s ->
        map j_event_id (Adbpull.json_output s)
        = count_up 0 (length (Adbpull.json_output s))
        /\ Adbpull.event_counter s = Z.of_nat (length (Adbpull.json_output s))).
Proof.
  split.
  - intros actions.
    assert (H : forall s, numbered (R.event_counter s) (R.json_output s) ->
                numbered (R.event_counter (R.run actions s))
                  (R.json_output (R.run actions s))).
    { unfold R.run. induction actions as [| a actions IH]; intros s Hs.
      - exact Hs.
      - simpl. apply IH. destruct a as [w line | w]; simpl.
        + destruct (r_line_output w line s) as [-> ->]. exact Hs.
        + rewrite r_pass_counter.
          destruct (r_pass_shape w s) as [_ ->].
          apply numbered_flush; [reflexivity | exact Hs]. }
    apply (H R.init). split; reflexivity.
  - intros actions.
    assert (H : forall s0 s, numbered (Adbpull.event_counter s0)
                               (Adbpull.json_output s0) ->
                Adbpull.run actions s0 = Some s ->
                numbered (Adbpull.event_counter s) (Adbpull.json_output s)).
    { induction actions as [| a actions IH]; intros s0 s Hs; simpl.
      - now intros [= <-].
      - destruct (Adbpull.step a s0) as [s1 |] eqn:Hstep; [| discriminate].
        apply IH. destruct a as [w line | t]; simpl in Hstep.
        + destruct (a_line_output w line s0 s1 Hstep) as [-> ->]. exact Hs.
        + injection Hstep as <-. cbn [Adbpull._process_buffer
            Adbpull.event_counter Adbpull.json_output].
          apply numbered_flush; [reflexivity | exact Hs]. }
    intros s Hrun. apply (H Adbpull.init s); [split; reflexivity | exact Hrun].
Qed.

Lemma X1_event_ids_count_from_zero_witness :
  exists s,
    Adbpull.run a_motion_run Adbpull.init = Some s
    /\ map j_event_id (Adbpull.json_output s) = [0]
    /\ Adbpull.event_counter s = 1.
Proof.
  eexists. split; [reflexivity |].
  exact (proj2 X1_event_ids_count_from_zero a_motion_run _ eq_refl).
Defined.

Lemma pop_all_skip {V : Type} (keys : list string) (k : string) (v : V)
    (d : Py.dict V) :
  ~ In k keys -> pop_all keys ((k, v) :: d) = (k, v) :: pop_all keys d.
Proof.
  revert d; induction keys as [| k0 keys IH]; intros d Hk; simpl.
  - reflexivity.
  - destruct (String.eqb_spec k0 k) as [-> | _].
    + exfalso. apply Hk. now left.
    + apply IH. intros H. apply Hk. now right.
Qed.

Lemma flush_loop_keys_in (due : pending -> bool)
    (record : pending -> Z -> json_obj) (items : Py.dict pending) (c : Z)
    (k : string) :
  In k (map fst (flush_loop due record items c)) -> In k (map fst items).
Proof.
  intros H. apply in_map_iff in H as [[k' r] [E Hr]]. simpl in E. subst k'.
  apply flush_loop_from in Hr as [e [_ [Hin _]]]. eauto using in_keys.
Qed.

Lemma flush_loop_records (due : pending -> bool)
    (record : pending -> Z -> json_obj) (items : Py.dict pending) (c : Z) :
  map snd (flush_loop due record items c)
  = write_from record c (map snd (filter (fun kv => due (snd kv)) items)).
Proof.
  revert c; induction items as [| [id e] items IH]; intros c; simpl.
  - reflexivity.
  - destruct (due e); simpl; [now rewrite IH | apply IH].
Qed.

(** What the loop removes and what it writes, in terms of the buffer. *)
Lemma flush_loop_partition (due : pending -> bool)
    (record : pending -> Z -> json_obj) (items : Py.dict pending) (c : Z) :
  wf_dict items ->
  pop_all (map fst (flush_loop due record items c)) items
  = filter (fun kv => negb (due (snd kv))) items
  /\ map fst (flush_loop due record items c)
     = map fst (filter (fun kv => due (snd kv)) items).
Proof.
  unfold wf_dict. revert c; induction items as [| [id e] items IH];
    intros c Hwf; simpl.
  - split; reflexivity.
  - inversion Hwf as [| ? ? Hnotin Hwf']; subst.
    destruct (due e) eqn:Hdue; simpl.
    + rewrite String.eqb_refl. destruct (IH (c + 1) Hwf') as [-> ->].
      split; reflexivity.
    + destruct (IH c Hwf') as [H1 H2]. rewrite pop_all_skip.
      * rewrite H1, H2. split; reflexivity.
      * intros H. apply Hnotin. eauto using flush_loop_keys_in.
Qed.

(** X2: a pass of the flush loop splits the buffer by its test.  What
    stays is the entries that are not due, in their order; what is
    appended to the output is the records of the due entries, in the
    order of the buffer, numbered from the counter on.  The test is age
    above 100 ms in r.py, and complete or age above 100 ms in
    adbpull.py. *)
Theorem X2_pass_splits_buffer :
  (forall w s,
     wf_dict (R.pending_events s) ->
     let s' := R._process_buffer w s in
     R.pending_events s'
     = filter (fun kv => negb (R.due (R.current_time w) (snd kv)))
         (R.pending_events s)
     /\ R.json_output s'
        = (R.json_output s
           ++ write_from (R.finish (R.current_view_hierarchy s'))
                (R.event_counter s)
                (map snd (filter (fun kv => R.due (R.current_time w) (snd kv))
                            (R.pending_events s))))%list)
  /\ (forall t s,
        wf_dict (Adbpull.pending_events s) ->
        let s' := Adbpull._process_buffer t s in
        Adbpull.pending_events s'
        = filter (fun kv => negb (Adbpull.due t (snd kv)))
            (Adbpull.pending_events s)
        /\ Adbpull.json_output s'
           = (Adbpull.json_output s
              ++ write_from (Adbpull.finish (Adbpull.current_view_hierarchy s'))
                   (Adbpull.event_counter s)
                   (map snd (filter (fun kv => Adbpull.due t (snd kv))
                               (Adbpull.pending_events s))))%list).
Proof.
  split.
  - intros w s Hwf s'. destruct (r_pass_shape w s) as [Hp Ho].
    fold s' in Hp, Ho. rewrite Hp, Ho. unfold R.flush.
    rewrite flush_loop_records. split; [| reflexivity].
    now apply flush_loop_partition.
  - intros t s Hwf s'. destruct (a_pass_shape t s) as [Hp Ho].
    fold s' in Hp, Ho. rewrite Hp, Ho. unfold Adbpull.flush.
    rewrite flush_loop_records. split; [| reflexivity].
    now apply flush_loop_partition.
Qed.

Lemma X2_pass_splits_buffer_witness :
  let s' := R._process_buffer (R.mk_tick_world 1 quiet quiet) r_touch_state in
  R.pending_events s' = []
  /\ R.json_output s'
     = [ mk_json "12:00:00.000" "/dev/input/event1" "com.example" ".Main"
           "TOUCH_DOWN" None None "unknown" "" 0 ].
Proof.
  assert (Hwf : wf_dict (R.pending_events r_touch_state)).
  { unfold wf_dict. simpl. constructor; [intros [] | constructor]. }
  exact (proj1 X2_pass_splits_buffer (R.mk_tick_world 1 quiet quiet)
           r_touch_state Hwf).
Defined.

(** ** More on the tokenizers *)

Lemma tokenless_line (line marker : string) :
  last_token line = None -> has_word marker = true ->
  Py.contains marker line = false.
Proof.
  intros Hnone Hw. destruct (Py.contains marker line) eqn:E; [| reflexivity].
  destruct (marked_line_has_token marker line Hw E) as [tok Htok]. congruence.
Qed.



(** X4: a fragment never mixes coordinates with anything else: in both
    tokenizers it holds x alone, or y alone, or no coordinate at all.  So
    no single line gives an event both its kind and a coordinate. *)
Theorem X4_fragment_shape (line : string) :
  fragment_shape (R._parse_event line)
  /\ forall i, Adbpull._parse_event line = Some i -> fragment_shape i.
Proof.
  unfold fragment_shape. split.
  - unfold R._parse_event. break_branches; simpl; eauto.
  - unfold Adbpull._parse_event. break_branches; intros i [= <-]; simpl; eauto.
Qed.

Lemma X4_fragment_shape_witness :
  fragment_shape (mk_info None (Some 50) None None).
Proof.
  exact (proj2 (X4_fragment_shape "EV_ABS ABS_MT_POSITION_Y 0x32") _ eq_refl).
Defined.

(** X5: the two tokenizers return the same fragment on every line that
    contains [DOWN] or [UP], and on every line that contains neither
    [BTN_TOUCH] nor [EV_KEY]; they can only differ on a touch or key line
    that says neither [DOWN] nor [UP]. *)
Theorem X5_tokenizers_agree (line : string) :
  Py.contains "DOWN" line || Py.contains "UP" line = true
  \/ (Py.contains "BTN_TOUCH" line = false /\ Py.contains "EV_KEY" line = false) ->
  Adbpull._parse_event line = Some (R._parse_event line).
Proof.
  intros H.
  unfold Adbpull._parse_event, R._parse_event, Adbpull.touch_kind,
    Adbpull.key_kind.
  remember (Py.contains "DOWN" line) as d.
  remember (Py.contains "UP" line) as u.
  remember (Py.contains "BTN_TOUCH" line) as b.
  remember (Py.contains "EV_KEY" line) as k.
  destruct (last_token line) as [tok |] eqn:Htok.
  - destruct d, u, b, k, (Py.contains "KEY_" line); simpl;
      break_branches; try reflexivity;
      destruct H as [H | [H1 H2]]; discriminate.
  - rewrite (tokenless_line line "ABS_MT_TRACKING_ID" Htok eq_refl).
    destruct d, u, b, k, (Py.contains "KEY_" line); simpl;
      break_branches; try reflexivity;
      destruct H as [H | [H1 H2]]; discriminate.
Qed.

Lemma X5_tokenizers_agree_witness :
  Adbpull._parse_event "EV_KEY KEY_BACK DOWN"
  = Some (R._parse_event "EV_KEY KEY_BACK DOWN").
Proof.
  apply X5_tokenizers_agree. left. reflexivity.
Defined.

(** ** More on the replayers *)

Lemma take_while_all (p : ascii -> bool) (s : string) :
  all_chars p (Py.take_while p s) = true.
Proof.
  induction s as [| c s IH]; simpl; [reflexivity |].
  destruct (p c) eqn:E; simpl; [now rewrite E | reflexivity].
Qed.

Lemma search_key_unfold (line : string) :
  search_key line
  = match (r <- Py.eat "KEY_" line ;;
           let w := Py.take_while Py.is_word r in
           if Py.is_empty w then None else Some w) with
    | Some w => Some w
    | None =>
        match line with
        | EmptyString => None
        | String _ rest => search_key rest
        end
    end.
Proof. destruct line; reflexivity. Qed.

(** The key name the tokenizers extract is a non-empty run of word
    characters. *)
Lemma search_key_word (line name : string) :
  search_key line = Some name ->
  all_chars Py.is_word name = true /\ name <> EmptyString.
Proof.
  induction line as [| c line IH]; [discriminate |].
  rewrite search_key_unfold.
  destruct (Py.eat "KEY_" (String c line)) as [r |]; [| exact IH].
  cbv zeta.
  destruct (Py.is_empty (Py.take_while Py.is_word r)) eqn:E; [exact IH |].
  intros [= <-]. split; [apply take_while_all |].
  intros H. now rewrite H in E.
Qed.

Lemma before_unfold (sep s : string) :
  before sep s
  = if prefix sep s then EmptyString
    else match s with
         | EmptyString => EmptyString
         | String c s' => String c (before sep s')
         end.
Proof. destruct s; reflexivity. Qed.

Lemma key_prefix_not_word (s : string) :
  all_chars Py.is_word s = true -> prefix "Key:" s = false.
Proof.
  intros Hw. destruct (prefix "Key:" s) eqn:Hp; [| reflexivity].
  destruct s as [| c1 [| c2 [| c3 [| c4 s4]]]]; simpl in Hp;
    repeat match type of Hp with
           | (if ?d then _ else _) = _ => destruct d; [subst |]; try discriminate
           end.
  simpl in Hw. discriminate.
Qed.

Lemma before_word (name : string) :
  all_chars Py.is_word name = true -> before "Key:" name = name.
Proof.
  induction name as [| c name IH]; intros Hw; rewrite before_unfold.
  - reflexivity.
  - rewrite (key_prefix_not_word _ Hw).
    simpl in Hw. apply andb_true_iff in Hw as [_ Hw]. now rewrite IH.
Qed.

Lemma prefix_append (a b : string) : prefix a (a ++ b) = true.
Proof.
  induction a as [| c a IH]; simpl.
  - now destruct b.
  - destruct (ascii_dec c c); [exact IH | congruence].
Qed.

(** X6: the replayers read back the key name that the tokenizers wrote:
    for a record whose extra_info is [Key:] followed by the name a
    tokenizer takes from a line, [_replay_key_event] looks up exactly
    that name, sends the key event of its code when the table has it,
    and does nothing otherwise. *)
Theorem X6_key_name_round_trip (line name device_id : string) (event : json_obj) :
  search_key line = Some name ->
  j_extra_info event = "Key:" ++ name ->
  Replayx._replay_key_event device_id event
  = match Replayx._map_key_name_to_code name with
    | Some key_code =>
        [ Print (j_event_type event ++ " for key: " ++ name
                 ++ " (code: " ++ key_code ++ ")");
          Shell ("adb -s " ++ device_id ++ " shell input keyevent " ++ key_code) ]
    | None => []
    end
  /\ forall result,
       Playx._replay_key_event device_id result event
       = match Playx._map_key_name_to_code name with
         | Some key_code =>
             ([ Print ("Replaying " ++ j_event_type event ++ " for key: " ++ name
                       ++ " (code: " ++ key_code ++ ")");
                Shell ("adb -s " ++ device_id ++ " shell input keyevent "
                       ++ key_code) ]
              ++ (if fst result =? 0 then []
                  else [Print ("Error replaying key event: " ++ snd result)]))%list
         | None => []
         end.
Proof.
  intros Hname Hextra. destruct (search_key_word line name Hname) as [Hw _].
  unfold Replayx._replay_key_event, Playx._replay_key_event.
  rewrite Hextra.
  unfold Py.startswith. rewrite prefix_append.
  change (Py.drop 4 ("Key:" ++ name)) with name.
  rewrite (before_word name Hw). split; [reflexivity | intros; reflexivity].
Qed.

Lemma X6_key_name_round_trip_witness :
  Replayx._replay_key_event "emulator-5554"
    (mk_json "12:00:00.000" "/dev/input/event1" "com.example" ".Main"
       "KEY_DOWN" None None "unknown" "Key:BACK" 0)
  = [ Print "KEY_DOWN for key: BACK (code: 4)";
      Shell "adb -s emulator-5554 shell input keyevent 4" ].
Proof.
  exact (proj1 (X6_key_name_round_trip "EV_KEY KEY_BACK DOWN" "BACK"
                  "emulator-5554"
                  (mk_json "12:00:00.000" "/dev/input/event1" "com.example"
                     ".Main" "KEY_DOWN" None None "unknown" "Key:BACK" 0)
                  eq_refl eq_refl)).
Defined.

Lemma key_code_in_table (name code : string) :
  Playx._map_key_name_to_code name = Some code -> In code key_codes.
Proof.
  unfold Playx._map_key_name_to_code. intros H. apply get_in in H.
  simpl in H. unfold key_codes.
  repeat destruct H as [[= _ <-] | H]; simpl; auto 10.
Qed.

Lemma playx_key_commands (device_id : string) (result : Z * string)
    (event : json_obj) (cmd : string) :
  In (Shell cmd) (Playx._replay_key_event device_id result event) ->
  exists code, In code key_codes
    /\ cmd = "adb -s " ++ device_id ++ " shell input keyevent " ++ code.
Proof.
  unfold Playx._replay_key_event.
  destruct (Py.startswith "Key:" (j_extra_info event)); [| intros []].
  destruct (Playx._map_key_name_to_code _) as [code |] eqn:Hc; [| intros []].
  intros H. apply in_app_or in H as [[H | [[= <-] | []]] | H].
  - discriminate H.
  - eauto using key_code_in_table.
  - destruct (fst result =? 0); [destruct H |].
    destruct H as [H | []]. discriminate H.
Qed.

Lemma playx_touch_commands (device_id : string) (result : Z * string)
    (event : json_obj) (cmd : string) :
  In (Shell cmd) (Playx._replay_touch_event device_id result event) ->
  j_event_type event = "TOUCH_DOWN"
  /\ exists x y : Z,
       j_x event = Some x /\ j_y event = Some y
       /\ cmd = "adb -s " ++ device_id ++ " shell input tap " ++ Py.str x
                ++ " " ++ Py.str y.
Proof.
  unfold Playx._replay_touch_event.
  destruct (j_x event) as [x |]; [| intros [H | []]; discriminate H].
  destruct (j_y event) as [y |]; [| intros [H | []]; discriminate H].
  destruct (String.eqb_spec (j_event_type event) "TOUCH_DOWN") as [E | _].
  - intros H. apply in_app_or in H as [[H | [[= <-] | []]] | H].
    + discriminate H.
    + split; [exact E |]. exists x, y. repeat split; reflexivity.
    + apply in_app_or in H as [H | [H | []]]; [| discriminate H].
      destruct (fst result =? 0); [destruct H |].
      destruct H as [H | []]. discriminate H.
  - destruct (String.eqb (j_event_type event) "TOUCH_UP"); [intros [] |].
    destruct (String.eqb (j_event_type event) "MOTION"); [| intros []].
    intros [H | []]. discriminate H.
Qed.

(** X7: every device command that the loop of playx.py runs is either a
    tap at the two integer coordinates of a TOUCH_DOWN record of the
    list, or a key event with one of the six codes of the table.  No
    command comes from a TOUCH_UP or MOTION record, from a record with a
    null coordinate, or from a key outside the table. *)
Theorem X7_playx_loop_commands (device_id : string) (results : Z -> Z * string)
    (total count : Z) (events : list json_obj) (cmd : string) :
  In (Shell cmd) (Playx.replay_loop device_id results total count events) ->
  (exists event x y,
     In event events /\ j_event_type event = "TOUCH_DOWN"
     /\ j_x event = Some x /\ j_y event = Some y
     /\ cmd = "adb -s " ++ device_id ++ " shell input tap " ++ Py.str x
              ++ " " ++ Py.str y)
  \/ (exists code, In code key_codes
        /\ cmd = "adb -s " ++ device_id ++ " shell input keyevent " ++ code).
Proof.
  revert count; induction events as [| event rest IH]; intros count H.
  - destruct H.
  - cbn [Playx.replay_loop] in H.
    apply in_app_or in H as [H | H].
    + destruct (in_strings (j_event_type event) touch_kinds).
      * apply playx_touch_commands in H as [Hk [x [y [Hx [Hy ->]]]]].
        left. exists event, x, y. repeat split; trivial. now left.
      * destruct (in_strings (j_event_type event) key_kinds); [| destruct H].
        right. eauto using playx_key_commands.
    + apply in_app_or in H as [[H | [H | []]] | H]; try discriminate H.
      destruct (IH _ H) as [[ev [x [y [Hin Hrest]]]] | Hkey]; [| now right].
      left. exists ev, x, y. split; [now right | exact Hrest].
Qed.

Lemma X7_playx_loop_commands_witness :
  (exists event x y,
     In event [sample_tap] /\ j_event_type event = "TOUCH_DOWN"
     /\ j_x event = Some x /\ j_y event = Some y
     /\ "adb -s emulator-5554 shell input tap 50 20"
        = "adb -s " ++ "emulator-5554" ++ " shell input tap " ++ Py.str x
          ++ " " ++ Py.str y)
  \/ (exists code, In code key_codes
        /\ "adb -s emulator-5554 shell input tap 50 20"
           = "adb -s " ++ "emulator-5554" ++ " shell input keyevent " ++ code).
Proof.
  apply (X7_playx_loop_commands "emulator-5554" (fun _ => (0, "")) 1 0
           [sample_tap]).
  right. left. reflexivity.
Defined.


(** ** More on the hierarchy tracker *)

Lemma digit_char (c : ascii) :
  Py.is_digit c = true ->
  Py.isspace c = false /\ Ascii.eqb c "_" = false
  /\ c <> "+"%char /\ c <> "-"%char /\ c <> "_"%char
  /\ exists d, Py.digit_val c = Some d /\ 0 <= d < 10.
Proof.
  intros H.
  destruct c as [[] [] [] [] [] [] [] []];
    try (exfalso; vm_compute in H; discriminate H);
    repeat split; try reflexivity; try discriminate;
    match goal with
    | |- exists d, Py.digit_val ?c = Some d /\ _ =>
        exists (Py.code c - 48);
        split; [reflexivity | vm_compute; split; [discriminate | reflexivity]]
    end.
Qed.

Lemma strip_sign_plain (c : ascii) (s : string) :
  c <> "+"%char -> c <> "-"%char ->
  Py.strip_sign (String c s) = (false, String c s).
Proof.
  intros Hp Hm.
  destruct c as [[] [] [] [] [] [] [] []]; try reflexivity;
    exfalso; (now apply Hp) || (now apply Hm).
Qed.

Lemma not_underscore_led {A : Type} (c : ascii) (s : string) (x y : A) :
  c <> "_"%char ->
  match String c s with
  | EmptyString => y
  | String "_" _ => y
  | _ => x
  end = x.
Proof.
  intros Hu.
  destruct c as [[] [] [] [] [] [] [] []]; try reflexivity.
  exfalso. now apply Hu.
Qed.

Lemma rstrip_digits (s : string) :
  all_chars Py.is_digit s = true -> Py.rstrip_by Py.isspace s = s.
Proof.
  induction s as [| c s IH]; simpl; [reflexivity |].
  intros H. apply andb_true_iff in H as [Hc Hs].
  destruct (digit_char c Hc) as [-> _]. simpl. now rewrite IH.
Qed.

Lemma digits_of_digit_string (s : string) (acc : Z) :
  all_chars Py.is_digit s = true -> 0 <= acc ->
  exists n, Py.digits 10 acc false s = Some n /\ 0 <= n.
Proof.
  revert acc; induction s as [| c s IH]; intros acc H Hacc; simpl.
  - eauto.
  - simpl in H. apply andb_true_iff in H as [Hc Hs].
    destruct (digit_char c Hc) as [_ [-> [_ [_ [_ [d [-> Hd]]]]]]].
    replace (d <? 10) with true by (symmetry; apply Z.ltb_lt; lia).
    apply IH; [exact Hs | lia].
Qed.

(** [int] never raises on the digits a regular expression captured, and
    gives a number that is not negative. *)
Lemma int_of_digit_string (s : string) :
  digit_string s -> exists n, Py.int 10 s = Some n /\ 0 <= n.
Proof.
  intros [Hne Hd]. destruct s as [| c s]; [congruence |].
  assert (Hc : Py.is_digit c = true)
    by (simpl in Hd; now apply andb_true_iff in Hd as [Hc _]).
  destruct (digit_char c Hc) as [Hsp [_ [Hp [Hm [Hu _]]]]].
  unfold Py.int, Py.strip, Py.strip_by.
  replace (Py.lstrip_by Py.isspace (String c s)) with (String c s)
    by (simpl; now rewrite Hsp).
  rewrite (rstrip_digits _ Hd), (strip_sign_plain c s Hp Hm).
  cbv beta iota zeta.
  change (Py.strip_base_prefix 10 (String c s)) with (String c s).
  cbv beta iota.
  rewrite (not_underscore_led c s _ _ Hu).
  destruct (digits_of_digit_string (String c s) 0 Hd (Z.le_refl 0))
    as [n [-> Hn]].
  simpl. eauto.
Qed.

Lemma number_digit_string (s d rest : string) :
  number s = Some (d, rest) -> digit_string d.
Proof.
  unfold number.
  destruct (Py.is_empty (Py.take_while Py.is_digit s)) eqn:E; [discriminate |].
  intros [= <- _]. split; [| apply take_while_all].
  intros H. now rewrite H in E.
Qed.

Lemma match_bounds_digit_strings (s rest g1 g2 g3 g4 : string) :
  match_bounds s = Some ((g1, g2, g3, g4), rest) ->
  digit_string g1 /\ digit_string g2 /\ digit_string g3 /\ digit_string g4.
Proof.
  unfold match_bounds.
  destruct (Py.eat "[" s) as [s1 |]; [| discriminate].
  destruct (number s1) as [[d1 r1] |] eqn:N1; [| discriminate].
  destruct (Py.eat "," (snd (d1, r1))) as [s2 |]; [| discriminate].
  destruct (number s2) as [[d2 r2] |] eqn:N2; [| discriminate].
  destruct (Py.eat "][" (snd (d2, r2))) as [s3 |]; [| discriminate].
  destruct (number s3) as [[d3 r3] |] eqn:N3; [| discriminate].
  destruct (Py.eat "," (snd (d3, r3))) as [s4 |]; [| discriminate].
  destruct (number s4) as [[d4 r4] |] eqn:N4; [| discriminate].
  destruct (Py.eat "]" (snd (d4, r4))) as [s5 |]; [| discriminate].
  simpl. intros [= <- <- <- <- _].
  split; [| split; [| split]]; eapply number_digit_string; eassumption.
Qed.

Lemma r_node_entry_total (node : R.element) :
  exists l, R.node_entry node = Some l /\ Forall r_on_screen l.
Proof.
  unfold R.node_entry.
  destruct (R.attr "bounds" node) as [bounds_str |]; [| eauto].
  destruct (Py.is_empty bounds_str); [eauto |].
  destruct (match_bounds bounds_str) as [[[[[g1 g2] g3] g4] rest] |] eqn:Hm;
    [| eauto].
  destruct (match_bounds_digit_strings _ _ _ _ _ _ Hm) as [H1 [H2 [H3 H4]]].
  destruct (int_of_digit_string g1 H1) as [a [-> Ha]].
  destruct (int_of_digit_string g2 H2) as [b [-> Hb]].
  destruct (int_of_digit_string g3 H3) as [c [-> Hc]].
  destruct (int_of_digit_string g4 H4) as [d [-> Hd]].
  eexists. split; [reflexivity |]. constructor; [| constructor].
  unfold r_on_screen. simpl. auto.
Qed.

Lemma r_collect_nodes_all (nodes : list R.element) :
  R.collect_nodes nodes
  = flat_map (fun node => match R.node_entry node with
                          | Some l => l
                          | None => []
                          end) nodes
  /\ Forall r_on_screen (R.collect_nodes nodes).
Proof.
  induction nodes as [| node nodes [IH1 IH2]]; simpl; [split; constructor |].
  destruct (r_node_entry_total node) as [l [-> Hl]].
  rewrite IH1. split; [reflexivity |].
  apply Forall_app. split; [exact Hl | now rewrite <- IH1].
Qed.

Lemma match_bounds_attr_unfold (s : string) :
  Adbpull.match_bounds_attr s
  = match (r <- Py.eat ("bounds=" ++ Adbpull.quote) s ;;
           m <- match_bounds r ;;
           r' <- Py.eat Adbpull.quote (snd m) ;;
           Some (fst m, r')) with
    | Some m => Some m
    | None =>
        match s with
        | EmptyString => None
        | String c s' =>
            if Ascii.eqb c ">" then None else Adbpull.match_bounds_attr s'
        end
    end.
Proof. destruct s; reflexivity. Qed.

Lemma match_bounds_attr_digit_strings (s rest g1 g2 g3 g4 : string) :
  Adbpull.match_bounds_attr s = Some ((g1, g2, g3, g4), rest) ->
  digit_string g1 /\ digit_string g2 /\ digit_string g3 /\ digit_string g4.
Proof.
  induction s as [| c s IH]; rewrite match_bounds_attr_unfold.
  - destruct (Py.eat ("bounds=" ++ Adbpull.quote) "") as [r |];
      [| discriminate].
    destruct (match_bounds r) as [[[[[d1 d2] d3] d4] r1] |] eqn:Hm;
      [| discriminate].
    destruct (Py.eat Adbpull.quote (snd (d1, d2, d3, d4, r1))) as [r' |];
      [| discriminate].
    simpl. intros [= <- <- <- <- _]. eauto using match_bounds_digit_strings.
  - destruct (Py.eat ("bounds=" ++ Adbpull.quote) (String c s)) as [r |].
    + destruct (match_bounds r) as [[[[[d1 d2] d3] d4] r1] |] eqn:Hm.
      * destruct (Py.eat Adbpull.quote (snd (d1, d2, d3, d4, r1))) as [r' |].
        -- simpl. intros [= <- <- <- <- _].
           eauto using match_bounds_digit_strings.
        -- destruct (Ascii.eqb c ">"); [discriminate | exact IH].
      * destruct (Ascii.eqb c ">"); [discriminate | exact IH].
    + destruct (Ascii.eqb c ">"); [discriminate | exact IH].
Qed.

Lemma a_node_of_total (s : string) (m : Adbpull.node_match) :
  Adbpull.match_node s = Some m ->
  exists n, Adbpull.node_of m = Some n /\ a_on_screen n.
Proof.
  unfold Adbpull.match_node.
  destruct (Py.eat "<node" s) as [r |]; [| discriminate].
  destruct (Adbpull.match_bounds_attr r) as [[[[[g1 g2] g3] g4] rest] |] eqn:Hm;
    [| discriminate].
  destruct (match_bounds_attr_digit_strings _ _ _ _ _ _ Hm)
    as [H1 [H2 [H3 H4]]].
  cbn [fst snd].
  destruct (Adbpull.match_resource_id rest) as [[v rest'] |];
    intros [= <-]; unfold Adbpull.node_of; cbn [Adbpull.bounds];
    destruct (int_of_digit_string g1 H1) as [a [-> Ha]];
    destruct (int_of_digit_string g2 H2) as [b [-> Hb]];
    destruct (int_of_digit_string g3 H3) as [c [-> Hc]];
    destruct (int_of_digit_string g4 H4) as [d [-> Hd]];
    (eexists; split; [reflexivity |]); unfold a_on_screen; simpl; auto.
Qed.

Lemma finditer_from_match (s : string) (skip : nat) (m : Adbpull.node_match) :
  In m (Adbpull.finditer skip s) -> exists s', Adbpull.match_node s' = Some m.
Proof.
  revert skip; induction s as [| c s IH]; intros skip H; [destruct H |].
  cbn [Adbpull.finditer] in H. destruct skip as [| k]; [| eauto].
  destruct (Adbpull.match_node (String c s)) as [m0 |] eqn:E; [| eauto].
  destruct H as [<- | H]; eauto.
Qed.

Lemma a_collect_nodes_all (ms : list Adbpull.node_match) :
  (forall m, In m ms -> exists s, Adbpull.match_node s = Some m) ->
  length (Adbpull.collect_nodes ms) = length ms
  /\ Forall a_on_screen (Adbpull.collect_nodes ms).
Proof.
  induction ms as [| m ms IH]; intros H; simpl; [split; constructor |].
  destruct (H m (or_introl eq_refl)) as [s Hs].
  destruct (a_node_of_total s m Hs) as [n [-> Hn]].
  destruct IH as [IH1 IH2]; [intros m' Hm'; apply H; now right |].
  simpl. split; [now rewrite IH1 | now constructor].
Qed.

(** X9: turning the bounds of a node into integers never fails, since
    the pattern only lets digits through.  So the loop that builds the
    snapshot never stops early: in r.py the snapshot of a parsed document
    holds the node of every element whose bounds match, in adbpull.py one
    node for every match of the pattern; and in both recorders, whatever
    the refreshes answer, no node of the snapshot ever has a negative
    coordinate. *)
Theorem X9_snapshot_nodes :
  (forall nodes,
     R.collect_nodes nodes
     = flat_map (fun node => match R.node_entry node with
                             | Some l => l
                             | None => []
                             end) nodes)
  /\ (forall node, R.node_entry node <> None)
  /\ (forall w h, Forall r_on_screen h ->
        Forall r_on_screen (R._update_view_hierarchy w h))
  /\ (forall xml_content,
        length (Adbpull.collect_nodes (Adbpull.finditer 0 xml_content))
        = length (Adbpull.finditer 0 xml_content))
  /\ (forall w h, Forall a_on_screen h ->
        Forall a_on_screen (Adbpull._update_view_hierarchy w h)).
Proof.
  split; [intros nodes; apply r_collect_nodes_all |].
  split.
  { intros node. destruct (r_node_entry_total node) as [l [-> _]]. discriminate. }
  split.
  { intros w h Hh. unfold R._update_view_hierarchy.
    break_branches; trivial. apply r_collect_nodes_all. }
  split.
  { intros xml_content. apply a_collect_nodes_all.
    intros m Hm. eauto using finditer_from_match. }
  intros w h Hh. unfold Adbpull._update_view_hierarchy.
  break_branches; trivial. apply a_collect_nodes_all.
  intros m Hm. eauto using finditer_from_match.
Qed.

Lemma X9_snapshot_nodes_witness :
  Forall a_on_screen (Adbpull._update_view_hierarchy a_doc_world []).
Proof.
  apply (proj2 (proj2 (proj2 (proj2 X9_snapshot_nodes)))). constructor.
Defined.

Lemma r_find_by_filter (h : list R.UiNode) (x y : Z) :
  R._find_resource_at_coordinates h (Some x) (Some y)
  = match filter (R.covers x y) h with
    | n :: rest => R.label (min_by R.area n rest)
    | [] => "unknown"
    end.
Proof. destruct h; reflexivity. Qed.

(** X10: the answer of a query depends only on the nodes that contain the
    point, taken in the order of the snapshot: two snapshots with the same
    containing nodes give the same answer, and a node that does not
    contain the point can be added or removed anywhere without changing
    it. *)
Theorem X10_only_containing_nodes_matter (x y : Z) :
  (forall h h',
     filter (R.covers x y) h = filter (R.covers x y) h' ->
     R._find_resource_at_coordinates h (Some x) (Some y)
     = R._find_resource_at_coordinates h' (Some x) (Some y))
  /\ (forall before after n,
        ~ r_inside x y n ->
        R._find_resource_at_coordinates (before ++ n :: after) (Some x) (Some y)
        = R._find_resource_at_coordinates (before ++ after) (Some x) (Some y))
  /\ (forall h h',
        filter (Adbpull.covers x y) h = filter (Adbpull.covers x y) h' ->
        Adbpull._find_resource_at_coordinates h (Some x) (Some y)
        = Adbpull._find_resource_at_coordinates h' (Some x) (Some y))
  /\ (forall before after n,
        ~ a_inside x y n ->
        Adbpull._find_resource_at_coordinates (before ++ n :: after)
          (Some x) (Some y)
        = Adbpull._find_resource_at_coordinates (before ++ after)
            (Some x) (Some y)).
Proof.
  assert (HR : forall h h',
             filter (R.covers x y) h = filter (R.covers x y) h' ->
             R._find_resource_at_coordinates h (Some x) (Some y)
             = R._find_resource_at_coordinates h' (Some x) (Some y)).
  { intros h h' E. now rewrite !r_find_by_filter, E. }
  assert (HA : forall h h',
             filter (Adbpull.covers x y) h = filter (Adbpull.covers x y) h' ->
             Adbpull._find_resource_at_coordinates h (Some x) (Some y)
             = Adbpull._find_resource_at_coordinates h' (Some x) (Some y)).
  { intros h h' E. unfold Adbpull._find_resource_at_coordinates. now rewrite E. }
  split; [exact HR |]. split; [| split; [exact HA |]].
  - intros before after n Hout. apply HR. rewrite !filter_app. simpl.
    destruct (R.covers x y n) eqn:E; [| reflexivity].
    exfalso. apply Hout. now apply r_covers_inside.
  - intros before after n Hout. apply HA. rewrite !filter_app. simpl.
    destruct (Adbpull.covers x y n) eqn:E; [| reflexivity].
    exfalso. apply Hout. now apply a_covers_inside.
Qed.

Lemma X10_only_containing_nodes_matter_witness :
  R._find_resource_at_coordinates ([screen] ++ ok_button :: []) (Some 500) (Some 20)
  = R._find_resource_at_coordinates ([screen] ++ []) (Some 500) (Some 20).
Proof.
  apply (proj1 (proj2 (X10_only_containing_nodes_matter 500 20))).
  unfold r_inside, ok_button. simpl. lia.
Defined.

Section FirstLeast.
Context {A : Type} (key : A -> Z).

Lemma min_by_app (best : A) (l1 l2 : list A) :
  min_by key best (l1 ++ l2) = min_by key (min_by key best l1) l2.
Proof.
  revert best; induction l1 as [| a l1 IH]; intros best; simpl; auto.
Qed.

Lemma min_by_keeps (best : A) (l : list A) :
  (forall m, In m l -> key best <= key m) -> min_by key best l = best.
Proof.
  revert best; induction l as [| a l IH]; intros best H; simpl; [reflexivity |].
  destruct (Z.ltb_spec (key a) (key best)) as [Hlt | _].
  - specialize (H a (or_introl eq_refl)). lia.
  - apply IH. intros m Hm. apply H. now right.
Qed.

(** Among the elements of least key, [min] takes the first. *)
Lemma min_by_first (first : A) (rest earlier later : list A) (n : A) :
  first :: rest = (earlier ++ n :: later)%list ->
  (forall m, In m earlier -> key n < key m) ->
  (forall m, In m later -> key n <= key m) ->
  min_by key first rest = n.
Proof.
  intros E Hearlier Hlater. destruct earlier as [| e earlier].
  - simpl in E. injection E as -> ->. now apply min_by_keeps.
  - simpl in E. injection E as -> ->. rewrite min_by_app. simpl.
    destruct (min_by_least key earlier e) as [Hin _].
    assert (Hn : key n < key (min_by key e earlier)) by (apply Hearlier, Hin).
    destruct (Z.ltb_spec (key n) (key (min_by key e earlier))); [| lia].
    now apply min_by_keeps.
Qed.
End FirstLeast.

(** X11: ties go to the first node.  When the containing nodes, in the
    order of the snapshot, are some nodes of larger area, then a node n,
    then nodes whose area is not smaller than that of n, the answer is
    the label of n, in both recorders. *)
Theorem X11_first_smallest_node_wins (x y : Z) :
  (forall h earlier n later,
     filter (R.covers x y) h = (earlier ++ n :: later)%list ->
     (forall m, In m earlier -> R.area n < R.area m) ->
     (forall m, In m later -> R.area n <= R.area m) ->
     R._find_resource_at_coordinates h (Some x) (Some y) = R.label n)
  /\ (forall h earlier n later,
        filter (Adbpull.covers x y) h = (earlier ++ n :: later)%list ->
        (forall m, In m earlier -> Adbpull.area n < Adbpull.area m) ->
        (forall m, In m later -> Adbpull.area n <= Adbpull.area m) ->
        Adbpull._find_resource_at_coordinates h (Some x) (Some y)
        = Adbpull.label n).
Proof.
  split.
  - intros h earlier n later Hf He Hl. rewrite r_find_by_filter.
    destruct (filter (R.covers x y) h) as [| first rest] eqn:E.
    + now destruct earlier.
    + f_equal. eapply min_by_first; eauto.
  - intros h earlier n later Hf He Hl.
    unfold Adbpull._find_resource_at_coordinates.
    destruct (filter (Adbpull.covers x y) h) as [| first rest] eqn:E.
    + now destruct earlier.
    + f_equal. eapply min_by_first; eauto.
Qed.

Lemma X11_first_smallest_node_wins_witness :
  R._find_resource_at_coordinates [screen; ok_button; ok_button_twin]
    (Some 50) (Some 20)
  = R.label ok_button.
Proof.
  apply (proj1 (X11_first_smallest_node_wins 50 20)
           [screen; ok_button; ok_button_twin] [screen] ok_button
           [ok_button_twin]).
  - reflexivity.
  - intros m [<- | []]. vm_compute. reflexivity.
  - intros m [<- | []]. vm_compute. discriminate.
Defined.

(** ** More on the aggregators *)




Lemma Qgtb_self (t : Q) : Qgtb (t - t) 1 = false.
Proof.
  apply Qgtb_le. assert (E : (t - t == 0)%Q) by ring. rewrite E. discriminate.
Qed.

(** X13: how a pass of r.py schedules the refreshes.  After it the flag
    that asks for a refresh is down, and the time of the last refresh is
    at most one second before the time of the pass.  A pass that finds
    the flag up runs the immediate refresh and not the periodic one; a
    pass that finds it down runs the periodic one exactly when the last
    refresh is more than one second old, and otherwise leaves the
    snapshot and its time alone. *)
Theorem X13_refresh_schedule (w : R.tick_world) (s : R.recorder) :
  let s' := R._process_buffer w s in
  R.update_hierarchy_needed s' = false
  /\ (R.current_time w - R.last_hierarchy_update s' <= 1)%Q
  /\ (R.update_hierarchy_needed s = true ->
      R.current_view_hierarchy s'
      = R._update_view_hierarchy (R.immediate w) (R.current_view_hierarchy s)
      /\ R.last_hierarchy_update s' = R.current_time w)
  /\ (R.update_hierarchy_needed s = false ->
      (1 < R.current_time w - R.last_hierarchy_update s)%Q ->
      R.current_view_hierarchy s'
      = R._update_view_hierarchy (R.periodic w) (R.current_view_hierarchy s)
      /\ R.last_hierarchy_update s' = R.current_time w)
  /\ (R.update_hierarchy_needed s = false ->
      (R.current_time w - R.last_hierarchy_update s <= 1)%Q ->
      R.current_view_hierarchy s' = R.current_view_hierarchy s
      /\ R.last_hierarchy_update s' = R.last_hierarchy_update s).
Proof.
  unfold R._process_buffer.
  destruct (R.update_hierarchy_needed s).
  - rewrite Qgtb_self. cbn.
    split; [reflexivity |]. split; [apply Qgtb_le, Qgtb_self |].
    split; [intros _; split; reflexivity |].
    split; intros Hflag; discriminate Hflag.
  - destruct (Qgtb (R.current_time w - R.last_hierarchy_update s) 1) eqn:E; cbn.
    + split; [reflexivity |]. split; [apply Qgtb_le, Qgtb_self |].
      split; [intros Hflag; discriminate Hflag |].
      split; [intros _ _; split; reflexivity |].
      intros _ Hle. apply Qgtb_le in Hle. congruence.
    + apply Qgtb_le in E.
      split; [reflexivity |]. split; [exact E |].
      split; [intros Hflag; discriminate Hflag |].
      split; [| intros _ _; split; reflexivity].
      intros _ Hlt. exfalso. eapply Qlt_not_le; eauto.
Qed.

Lemma X13_refresh_schedule_witness :
  let w := R.mk_tick_world 5 quiet quiet in
  let s' := R._process_buffer w r_flagged_state in
  R.current_view_hierarchy s'
  = R._update_view_hierarchy (R.immediate w)
      (R.current_view_hierarchy r_flagged_state)
  /\ R.last_hierarchy_update s' = R.current_time w.
Proof.
  exact (proj1 (proj2 (proj2 (X13_refresh_schedule
                                (R.mk_tick_world 5 quiet quiet)
                                r_flagged_state))) eq_refl).
Defined.

Lemma append_same_length (a a' b b' : string) :
  a ++ b = a' ++ b' -> String.length a = String.length a' ->
  a = a' /\ b = b'.
Proof.
  revert a'; induction a as [| c a IH]; intros [| c' a'] E L;
    simpl in *; try discriminate.
  - now split.
  - injection E as -> E. injection L as L.
    destruct (IH a' E L) as [-> ->]. now split.
Qed.

(** The kind that a key holds after its stamp is one kind only. *)
Lemma kind_of_key (k1 k2 d1 d2 : string) :
  In k1 ("UNKNOWN" :: event_kinds) -> In k2 ("UNKNOWN" :: event_kinds) ->
  k1 ++ "_" ++ d1 = k2 ++ "_" ++ d2 -> k1 = k2.
Proof.
  intros H1 H2 E. simpl in H1, H2.
  repeat destruct H1 as [<- | H1]; try destruct H1;
    repeat destruct H2 as [<- | H2]; try destruct H2;
    try reflexivity; simpl in E; discriminate E.
Qed.

Lemma r_line_entries (w : R.line_world) (line : string) (s : R.recorder) :
  String.length (R.timestamp w) = 12%nat ->
  (forall k e, In (k, e) (R.pending_events s) -> r_entry_ok k e) ->
  forall k e, In (k, e) (R.pending_events (R._collect_event_data w line s)) ->
  r_entry_ok k e.
Proof.
  intros Hstamp Hinv. unfold R._collect_event_data.
  destruct (Py.startswith "/dev/input/" line); [exact Hinv |].
  set (kind := match ei_event_type (R._parse_event line) with
               | Some k => k
               | None => "UNKNOWN"
               end).
  set (id := R.timestamp w ++ "_" ++ kind ++ "_" ++ R.current_device s).
  set (created := match Py.get id (R.pending_events s) with
                  | Some e => e
                  | None =>
                      mk_pending (R.timestamp w) (R.current_device s)
                        (R.current_pkg s) (R.current_activity s) kind
                        None None (R.now w) "unknown" ""
                  end).
  assert (Hkind : In kind ("UNKNOWN" :: event_kinds)).
  { subst kind. destruct (ei_event_type (R._parse_event line)) as [k |] eqn:E.
    - right. now destruct (r_kind_fragment line k E).
    - now left. }
  assert (Hcreated : p_event_type created = kind
                     /\ (kind <> "UNKNOWN" ->
                         p_x created = None /\ p_y created = None)
                     /\ p_resource_id created = "unknown").
  { subst created. destruct (Py.get id (R.pending_events s)) as [e0 |] eqn:Hget.
    - apply get_in in Hget.
      destruct (Hinv _ _ Hget) as [[stamp [device [Hkey Hlen]]] [Hk0 [Hc0 Hr0]]].
      assert (E : p_event_type e0 = kind).
      { unfold id in Hkey.
        apply append_same_length in Hkey as [_ Hkey]; [| congruence].
        injection Hkey as Hkey. symmetry.
        exact (kind_of_key kind (p_event_type e0) (R.current_device s) device
                 Hkind Hk0 Hkey). }
      rewrite <- E. auto.
    - simpl. auto. }
  destruct Hcreated as [Hc1 [Hc2 Hc3]].
  assert (Hevent : r_entry_ok id (R.with_coordinates (R._parse_event line) created)).
  { assert (Et : p_event_type (R.with_coordinates (R._parse_event line) created) = kind).
    { unfold R.with_coordinates. cbn [p_event_type]. rewrite Hc1.
      unfold kind. now destruct (ei_event_type (R._parse_event line)). }
    unfold r_entry_ok. rewrite Et. split; [| split; [exact Hkind | split]].
    - exists (R.timestamp w), (R.current_device s). now split.
    - intros Hne. unfold R.with_coordinates. cbn [p_x p_y].
      assert (Hk : ei_event_type (R._parse_event line) = Some kind).
      { unfold kind in Hne |- *.
        destruct (ei_event_type (R._parse_event line)); [reflexivity |].
        now elim Hne. }
      destruct (r_kind_fragment line kind Hk) as [_ [Hx Hy]].
      rewrite Hx, Hy. now apply Hc2.
    - exact Hc3. }
  match goal with
  | |- context [if ?b then _ else _] => destruct b
  end.
  - destruct (R._get_current_app_info w s) as [pkg activity].
    cbn [R.pending_events]. intros k e Hin.
    apply set_in in Hin as [[= -> ->] | Hin]; [| now apply Hinv].
    exact Hevent.
  - cbn [R.pending_events]. intros k e Hin.
    apply set_in in Hin as [[= -> ->] | Hin]; [| now apply Hinv].
    exact Hevent.
Qed.

Lemma r_pass_records (w : R.tick_world) (s : R.recorder) :
  (forall k e, In (k, e) (R.pending_events s) -> r_entry_ok k e) ->
  Forall r_record_ok (R.json_output s) ->
  (forall k e, In (k, e) (R.pending_events (R._process_buffer w s)) ->
     r_entry_ok k e)
  /\ Forall r_record_ok (R.json_output (R._process_buffer w s)).
Proof.
  intros Hinv Hout. destruct (r_pass_shape w s) as [Hp Ho].
  rewrite Hp, Ho. split.
  - intros k e Hin. eauto using pop_all_in.
  - apply Forall_app. split; [exact Hout |].
    apply Forall_forall. intros r Hr.
    apply in_map_iff in Hr as [[k r'] [E Hr]]. simpl in E. subst r'.
    apply flush_loop_from in Hr as [e [c [Hin [_ ->]]]].
    destruct (Hinv _ _ Hin) as [_ [_ [Hc Hrid]]].
    intros Hk. cbn [R.finish to_json j_event_type j_x j_y j_resource_id] in *.
    assert (Hne : p_event_type e <> "UNKNOWN").
    { intros E. rewrite E in Hk. simpl in Hk. intuition discriminate. }
    destruct (Hc Hne) as [Hx Hy]. unfold is_complete. rewrite Hx.
    auto.
Qed.

(** X14: in r.py the coordinates never reach a touch or key record.  In
    any run whose lines carry the twelve-character stamp of the clock,
    every record written with one of the five kinds has x and y null and
    resource_id unknown: the lines that bring coordinates are buffered
    under the kind UNKNOWN, apart from the line that brings the kind. *)
Theorem X14_r_kind_records_have_no_coordinates (actions : list R.action) :
  Forall stamped actions ->
  forall r, In r (R.json_output (R.run actions R.init)) ->
  In (j_event_type r) event_kinds ->
  j_x r = None /\ j_y r = None /\ j_resource_id r = "unknown".
Proof.
  intros Hstamped.
  assert (H : forall s,
             (forall k e, In (k, e) (R.pending_events s) -> r_entry_ok k e) ->
             Forall r_record_ok (R.json_output s) ->
             Forall r_record_ok (R.json_output (R.run actions s))).
  { unfold R.run. induction Hstamped as [| a actions Ha _ IH];
      intros s Hinv Hout; [exact Hout |].
    simpl. destruct a as [w line | w]; simpl.
    - apply IH.
      + now apply r_line_entries.
      + now destruct (r_line_output w line s) as [-> _].
    - destruct (r_pass_records w s Hinv Hout) as [Hinv' Hout']. now apply IH. }
  intros r Hr. specialize (H R.init).
  eapply Forall_forall in H; [exact H | intros k e [] | constructor | exact Hr].
Qed.

Lemma X14_r_kind_records_have_no_coordinates_witness :
  map (fun r => (j_event_type r, j_x r, j_y r))
    (R.json_output (R.run r_touch_run R.init))
  = [("UNKNOWN", Some 100, Some 50); ("TOUCH_DOWN", None, None)]
  /\ forall r, In r (R.json_output (R.run r_touch_run R.init)) ->
       In (j_event_type r) event_kinds ->
       j_x r = None /\ j_y r = None /\ j_resource_id r = "unknown".
Proof.
  split; [reflexivity |].
  apply (X14_r_kind_records_have_no_coordinates r_touch_run).
  repeat constructor.
Defined.

(** ** The session of playx.py *)

Lemma same_app_eq (current : string * string) (package activity : string) :
  Playx.same_app current package activity = true <-> current = (package, activity).
Proof.
  unfold Playx.same_app. destruct current as [p a]. simpl.
  rewrite andb_true_iff, !String.eqb_eq. split.
  - intros [-> ->]. reflexivity.
  - intros [= -> ->]. now split.
Qed.

Lemma launch_commands (device_id package activity : string)
    (focus_before : string * string) (launch : shell_result)
    (focus_after : string * string) (cmd : string) :
  In (Shell cmd)
     (snd (Playx._launch_activity device_id package activity focus_before
             launch focus_after)) ->
  cmd = Playx.focus_query device_id
  \/ (cmd = Playx.launch_command device_id package activity
      /\ focus_before <> (package, activity)).
Proof.
  unfold Playx._launch_activity.
  destruct (Playx.same_app focus_before package activity) eqn:E.
  - simpl. intros [[= <-] | [H | []]]; [now left | discriminate H].
  - assert (Hne : focus_before <> (package, activity)).
    { intros H. apply same_app_eq in H. congruence. }
    destruct launch as [e | returncode out err];
      [| destruct (returncode =? 0);
         [destruct (Playx.same_app focus_after package activity) |]];
      simpl; intros H;
      repeat (destruct H as [H | H];
              [first [discriminate H
                     | injection H as <-; first [now left | now right]] |]);
      destruct H.
Qed.

(** X15: [_launch_activity] of playx.py answers [True] exactly when the
    focus it saw last is the target: either the target was in focus from
    the start, or the start command returned 0 and the target was in focus
    afterwards.  It runs the start command only when the target was not in
    focus, and no other command than the focus query and that one. *)
Theorem X15_launch_is_verified (device_id package activity : string)
    (focus_before : string * string) (launch : shell_result)
    (focus_after : string * string) :
  let result := Playx._launch_activity device_id package activity focus_before
                  launch focus_after in
  (fst result = true <->
   focus_before = (package, activity)
   \/ ((exists stdout stderr, launch = Returned 0 stdout stderr)
       /\ focus_after = (package, activity)))
  /\ (forall cmd, In (Shell cmd) (snd result) ->
      cmd = Playx.focus_query device_id
      \/ (cmd = Playx.launch_command device_id package activity
          /\ focus_before <> (package, activity))).
Proof.
  split; [| intros cmd; apply launch_commands].
  unfold Playx._launch_activity.
  destruct (Playx.same_app focus_before package activity) eqn:E.
  - apply same_app_eq in E. simpl. split; auto.
  - assert (Hne : focus_before <> (package, activity)).
    { intros H. apply same_app_eq in H. congruence. }
    destruct launch as [e | returncode out err].
    + simpl. split; [discriminate |].
      intros [H | [[out [err H]] _]]; [contradiction | discriminate H].
    + destruct (Z.eqb_spec returncode 0) as [-> | Hrc].
      * destruct (Playx.same_app focus_after package activity) eqn:E2; simpl.
        -- apply same_app_eq in E2. split; [| reflexivity].
           intros _. right. split; [eauto | exact E2].
        -- split; [discriminate |].
           intros [H | [_ H]]; [contradiction |].
           apply same_app_eq in H. congruence.
      * simpl. split; [discriminate |].
        intros [H | [[out' [err' H]] _]]; [contradiction |].
        injection H as H _ _. contradiction.
Qed.

Lemma check_commands (device_id : string) (devices : shell_result) (cmd : string) :
  In (Shell cmd) (snd (Playx._check_emulator_connected device_id devices)) ->
  cmd = "adb devices".
Proof.
  destruct devices; simpl; intros H;
    repeat (destruct H as [H | H];
            [first [discriminate H | now injection H as <-] |]);
    destruct H.
Qed.

Lemma load_commands (events_file : string) (source : events_source)
    (cmd : string) :
  ~ In (Shell cmd) (snd (Playx.load_events events_file source)).
Proof.
  destruct source as [| e | [| first rest]]; simpl; intros [H | []];
    discriminate H.
Qed.

(** X16: [replay_events] of playx.py touches the device only when it is
    ready.  Unless the emulator is listed, the file holds records and the
    launch of the application of the first record is verified, the only
    commands it runs are the device list, the focus query and the start
    command: no tap, no key event, and no force-stop either.  When it is
    ready, it replays every record of the file in order, reports the end,
    and closes the package of the first record last. *)
Theorem X16_replay_events_needs_ready (device_id events_file : string)
    (w : Playx.replay_world) :
  let trace := Playx.replay_events device_id events_file w in
  (forall cmd, In (Shell cmd) trace ->
     cmd = "adb devices" \/ cmd = Playx.focus_query device_id
     \/ (exists package activity,
           cmd = Playx.launch_command device_id package activity)
     \/ exists first rest, ready device_id events_file w first rest)
  /\ (forall first rest, ready device_id events_file w first rest ->
      exists before,
        trace
        = (before
           ++ Playx.replay_loop device_id (Playx.results w)
                (Z.of_nat (length (first :: rest))) 0 (first :: rest)
           ++ [Print (newline ++ "Replay completed.")]
           ++ snd (Playx._close_activity device_id (j_package first)
                     (Playx.close w)))%list).
Proof.
  unfold ready. split.
  - intros cmd. unfold Playx.replay_events.
    pose proof (check_commands device_id (Playx.devices w) cmd) as Hcheck.
    destruct (Playx._check_emulator_connected device_id (Playx.devices w))
      as [connected checked]. cbn [fst snd] in *.
    destruct connected; cbn [negb].
    + pose proof (load_commands events_file (Playx.source w) cmd) as Hload.
      destruct (Playx.source w) as [| e | [| first rest]] eqn:Hsrc;
        cbn [Playx.load_events fst snd] in *.
      * intros H. apply in_app_or in H as [H | H]; [auto | contradiction].
      * intros H. apply in_app_or in H as [H | H]; [auto | contradiction].
      * intros H. apply in_app_or in H as [H | H]; [auto | contradiction].
      * pose proof (launch_commands device_id (j_package first)
                      (j_activity first) (Playx.focus_before w)
                      (Playx.launch w) (Playx.focus_after w) cmd) as Hlaunch.
        destruct (Playx._launch_activity device_id (j_package first)
                    (j_activity first) (Playx.focus_before w) (Playx.launch w)
                    (Playx.focus_after w)) as [launched launching] eqn:Hl.
        cbn [fst snd] in *. destruct launched; cbn [negb].
        -- intros _. right. right. right. exists first, rest.
           rewrite Hl. auto.
        -- intros H. apply in_app_or in H as [H | H]; [auto |].
           apply in_app_or in H as [H | H]; [contradiction |].
           apply in_app_or in H as [H | [H | []]]; [| discriminate H].
           destruct (Hlaunch H) as [-> | [-> _]]; eauto 6.
    + intros H. apply in_app_or in H as [H | [H | []]];
        [auto | discriminate H].
  - intros first rest [Hc [Hsrc Hl]]. unfold Playx.replay_events.
    rewrite Hsrc.
    destruct (Playx._check_emulator_connected device_id (Playx.devices w))
      as [connected checked]. cbn [fst] in Hc. subst connected. cbn [negb].
    cbn [Playx.load_events].
    destruct (Playx._launch_activity device_id (j_package first)
                (j_activity first) (Playx.focus_before w) (Playx.launch w)
                (Playx.focus_after w)) as [launched launching].
    cbn [fst] in Hl. subst launched. cbn [negb].
    eexists. rewrite !app_assoc. reflexivity.
Qed.

Lemma X16_replay_events_needs_ready_witness :
  exists before,
    Playx.replay_events "emulator-5554" "emulator_events.json" sample_world
    = (before
       ++ Playx.replay_loop "emulator-5554" (Playx.results sample_world)
            1 0 [sample_tap]
       ++ [Print (newline ++ "Replay completed.")]
       ++ snd (Playx._close_activity "emulator-5554" "com.example"
                 (Playx.close sample_world)))%list.
Proof.
  apply (proj2 (X16_replay_events_needs_ready "emulator-5554"
                  "emulator_events.json" sample_world) sample_tap []).
  repeat split; reflexivity.
Defined.

Lemma X15_launch_is_verified_witness :
  fst (Playx._launch_activity "emulator-5554" "com.example" ".Main"
         ("com.android.launcher", ".Home") (Returned 0 "" "")
         ("com.example", ".Main")) = true.
Proof.
  apply (proj1 (X15_launch_is_verified "emulator-5554" "com.example" ".Main"
                  ("com.android.launcher", ".Home") (Returned 0 "" "")
                  ("com.example", ".Main"))).
  right. split; [eauto | reflexivity].
Defined.

(** ** Device lines *)

Lemma rstrip_keeps_prefix (p : ascii -> bool) (q s : string) :
  all_chars (fun c => negb (p c)) q = true -> prefix q s = true ->
  prefix q (Py.rstrip_by p s) = true.
Proof.
  revert s; induction q as [| a q IH]; intros s Hq Hp.
  - now destruct (Py.rstrip_by p s).
  - destruct s as [| b s]; simpl in Hp; [discriminate |].
    destruct (ascii_dec a b) as [<- | _]; [| discriminate].
    simpl in Hq. apply andb_true_iff in Hq as [Ha Hq].
    apply negb_true_iff in Ha. simpl. rewrite Ha. simpl.
    destruct (ascii_dec a a); [auto | congruence].
Qed.

Lemma rstrip_last (p : ascii -> bool) (s : string) (c : ascii) :
  last_char (Py.rstrip_by p s) = Some c -> p c = false.
Proof.
  induction s as [| a s IH]; simpl; [discriminate |].
  destruct (p a) eqn:Ha; simpl.
  - destruct (Py.rstrip_by p s) as [| b r]; simpl; [discriminate | exact IH].
  - destruct (Py.rstrip_by p s) as [| b r]; simpl.
    + now intros [= <-].
    + exact IH.
Qed.

Lemma prefix_head (a : ascii) (q s : string) :
  prefix (String a q) s = true -> exists s', s = String a s'.
Proof.
  destruct s as [| b s]; simpl; [discriminate |].
  destruct (ascii_dec a b) as [<- | _]; [eauto | discriminate].
Qed.

(** X17: a line that starts with [/dev/input/] only names the device, in
    both recorders: the buffer, the output, the snapshot and the counter
    stay as they are, and the device becomes the line without its
    trailing colons, which still starts with [/dev/input/] and does not
    end with a colon. *)
Theorem X17_device_line (line : string) :
  Py.startswith "/dev/input/" line = true ->
  let device := Py.strip_char ":" line in
  Py.startswith "/dev/input/" device = true
  /\ last_char device <> Some ":"%char
  /\ (forall w s,
        R._collect_event_data w line s
        = R.mk_recorder device (R.pending_events s)
            (R.current_view_hierarchy s) (R.last_hierarchy_update s)
            (R.event_counter s) (R.current_pkg s) (R.current_activity s)
            (R.last_known_pkg s) (R.last_known_activity s)
            (R.update_hierarchy_needed s) (R.json_output s))
  /\ (forall w s,
        Adbpull._collect_event_data w line s
        = Some (Adbpull.mk_recorder (Adbpull.coords s) (Adbpull.current_pkg s)
                  (Adbpull.current_activity s) device
                  (Adbpull.pending_events s) (Adbpull.current_view_hierarchy s)
                  (Adbpull.last_hierarchy_update s) (Adbpull.event_counter s)
                  (Adbpull.json_output s))).
Proof.
  intros Hdev device.
  assert (Hl : Py.lstrip_by (Ascii.eqb ":") line = line).
  { destruct (prefix_head _ _ _ Hdev) as [rest ->]. reflexivity. }
  split; [| split; [| split]].
  - subst device. unfold Py.strip_char, Py.strip_by. rewrite Hl.
    unfold Py.startswith in *. now apply rstrip_keeps_prefix.
  - subst device. unfold Py.strip_char, Py.strip_by. intros H.
    apply rstrip_last in H. discriminate H.
  - intros w s. unfold R._collect_event_data. now rewrite Hdev.
  - intros w s. unfold Adbpull._collect_event_data. now rewrite Hdev.
Qed.

Lemma X17_device_line_witness :
  Py.startswith "/dev/input/" (Py.strip_char ":" "/dev/input/event1:") = true
  /\ last_char (Py.strip_char ":" "/dev/input/event1:") <> Some ":"%char.
Proof.
  destruct (X17_device_line "/dev/input/event1:" eq_refl) as [H1 [H2 _]].
  split; [exact H1 | exact H2].
Defined.
